(** * Graph utilities of mitosheet: a shallow embedding and its properties

    Source: [mitosheet/step_performers/graph_steps/graph_utils.py].

    The file embeds the four helpers of the module
    ([param_dict_to_code], [get_graph_title], [get_new_graph_tab_name],
    [get_html_and_script_from_figure]) together with the Python string
    primitives they are written with ([str.find], slicing, [str.join],
    string repetition), and states what they compute. *)

From Stdlib Require Import Ascii String List ZArith Lia Bool Arith.
From Stdlib Require Import DecimalString DecimalNat FinFun.
Import ListNotations.

Set Implicit Arguments.

(** ** Python strings and the primitives used by the module *)

(** A Python [str] is a sequence of characters. [find], slicing and [len]
    work on character positions, whatever the characters are; the
    characters are modelled as [ascii]. *)
Definition str := list ascii.

(** A string literal of the source. *)
Definition lit (s : string) : str := list_ascii_of_string s.

(** The newline character, written [\n] in the source. *)
Definition nl : ascii := "010"%char.

(** The double quote character. *)
Definition dq : ascii := "034"%char.

(** A literal between double quotes. *)
Definition quoted (s : string) : str := [dq] ++ lit s ++ [dq].

(** [len(s)], a Python integer. *)
Definition len (s : str) : Z := Z.of_nat (length s).

(** [s == t] on strings. *)
Fixpoint str_eqb (s t : str) : bool :=
  match s, t with
  | [], [] => true
  | a :: s', b :: t' => Ascii.eqb a b && str_eqb s' t'
  | _, _ => false
  end.

(** [s.startswith(sub)]. *)
Fixpoint starts_with (sub s : str) : bool :=
  match sub, s with
  | [], _ => true
  | _ :: _, [] => false
  | a :: sub', b :: s' => Ascii.eqb a b && starts_with sub' s'
  end.

(** Offset of the first occurrence of [sub] in [s], scanning from the left. *)
Fixpoint first_occ (sub s : str) : option nat :=
  match s with
  | [] => if starts_with sub [] then Some 0 else None
  | _ :: s' =>
      if starts_with sub s then Some 0 else option_map S (first_occ sub s')
  end.

(** [s.find(sub, start)]: a negative [start] counts from the end and is
    clamped to 0, a [start] beyond the end finds nothing, and the answer is
    the absolute position of the first occurrence at or after [start], or
    [-1]. *)
Definition py_find (s sub : str) (start : Z) : Z :=
  let n := len s in
  let st := if (start <? 0)%Z then Z.max 0 (start + n) else start in
  if (n <? st)%Z then (-1)%Z
  else match first_occ sub (skipn (Z.to_nat st) s) with
       | Some k => (st + Z.of_nat k)%Z
       | None => (-1)%Z
       end.

(** Adjustment of one bound of a slice: negative bounds count from the end,
    and every bound is clamped to [0 .. len]. *)
Definition slice_bound (i n : Z) : Z :=
  if (i <? 0)%Z then Z.max 0 (i + n) else Z.min i n.

(** [s[a:b]]. *)
Definition py_slice (s : str) (a b : Z) : str :=
  let lo := slice_bound a (len s) in
  let hi := slice_bound b (len s) in
  firstn (Z.to_nat (hi - lo)) (skipn (Z.to_nat lo) s).

(** [sep.join(parts)]. *)
Fixpoint py_join (sep : str) (parts : list str) : str :=
  match parts with
  | [] => []
  | [p] => p
  | p :: rest => p ++ sep ++ py_join sep rest
  end.

(** [s * n]. *)
Fixpoint py_repeat (s : str) (n : nat) : str :=
  match n with
  | O => []
  | S n' => s ++ py_repeat s n'
  end.

(** [s] has an occurrence of [sub] somewhere. *)
Fixpoint occurs (sub s : str) : bool :=
  match s with
  | [] => starts_with sub []
  | _ :: s' => starts_with sub s || occurs sub s'
  end.

(** ** Outcomes of a call *)

Inductive exn : Type :=
| KeyError (key : str).

(** A call returns a value, raises, or (for a loop run with a bounded number
    of iterations) uses up its iterations. *)
Inductive outcome (A : Type) : Type :=
| Returns (a : A)
| Raises (e : exn)
| OutOfFuel.

Arguments Raises {A} e.
Arguments OutOfFuel {A}.

(** ** The markup and script extractor *)

Module Extractor.

(** The dictionary [{"html": div, "script": script}] returned to the
    frontend. *)
Record fragments : Type := mk_fragments { html : str; script : str }.

Definition div_open : str := lit "<div id=".
Definition div_close : str := lit "</div>".
Definition script_open : str :=
  lit "<script type=" ++ [dq] ++ lit "text/javascript" ++ [dq] ++ lit ">".
Definition script_close : str := lit "</script>".

(** The [while index < len(original_html)] loop. [fuel] bounds the number
    of iterations. *)
Fixpoint script_loop (fuel : nat) (original_html : str) (index : Z)
    (script : str) : outcome str :=
  match fuel with
  | O => OutOfFuel
  | S fuel' =>
      if (index <? len original_html)%Z then
        let script_start := py_find original_html script_open index in
        let script_end := py_find original_html script_close script_start in
        if (script_start =? -1)%Z || (script_end =? -1)%Z then Returns script
        else
          let script_start := (script_start + len script_open)%Z in
          let script :=
            script ++ py_slice original_html script_start script_end
                   ++ lit ";" ++ [nl] in
          script_loop fuel' original_html (script_end + 9)%Z script
      else Returns script
  end.

(** The part of [get_html_and_script_from_figure] that follows
    [buffer.getvalue()]. Every iteration of the loop moves [index] forward,
    so [S (length original_html)] iterations are enough. *)
Definition extract (original_html : str) : outcome fragments :=
  let div :=
    py_slice original_html
      (py_find original_html div_open 0)
      (py_find original_html div_close (py_find original_html div_open 0)) in
  match script_loop (S (length original_html)) original_html 0 [] with
  | Returns script => Returns (mk_fragments div script)
  | Raises e => Raises e
  | OutOfFuel => OutOfFuel
  end.

Section Renderer.

(** The plotly figure and [fig.write_html(buffer, full_html=False, ...)]
    followed by [buffer.getvalue()] belong to the rendering engine. *)
Variable Figure : Type.
Variable write_html : Figure -> bool -> Z -> Z -> str.

Definition get_html_and_script_from_figure (fig : Figure) (height width : Z)
    (include_plotlyjs : bool) : outcome fragments :=
  let original_html := write_html fig include_plotlyjs height width in
  extract original_html.

End Renderer.

End Extractor.

(** ** Dictionaries and values *)

(** A Python dictionary with string keys, in insertion order. *)
Definition dict (V : Type) : Type := list (str * V).

(** [d.get(key)]: the value bound to [key], if any. *)
Fixpoint dict_get (V : Type) (d : dict V) (key : str) : option V :=
  match d with
  | [] => None
  | (k, v) :: d' => if str_eqb key k then Some v else dict_get d' key
  end.

#[local] Set Warnings "-register-all".

Section Values.

(** Values typed [Any] in the source: strings, dictionaries (the two kinds
    the module looks into) and the values of every other type, left
    abstract. *)
Variable atom : Type.

Inductive pyval : Type :=
| PyAtom (a : atom)
| PyStr (s : str)
| PyDict (items : list (str * pyval)).

End Values.

Arguments PyStr {atom} s.
Arguments PyDict {atom} items.

(** ** The title builder *)

Module Title.

Definition SCATTER : str := lit "scatter".
Definition LINE : str := lit "line".
Definition BAR : str := lit "bar".
Definition HISTOGRAM : str := lit "histogram".
Definition BOX : str := lit "box".
Definition STRIP : str := lit "strip".
Definition VIOLIN : str := lit "violin".
Definition ECDF : str := lit "ecdf".
Definition DENSITY_HEATMAP : str := lit "density heatmap".
Definition DENSITY_CONTOUR : str := lit "density contour".

Definition GRAPH_TITLE_LABELS : dict str :=
  [ (SCATTER, lit "scatter plot");
    (LINE, lit "line");
    (BAR, lit "bar chart");
    (BOX, lit "box plot");
    (HISTOGRAM, lit "histogram");
    (STRIP, lit "strip");
    (VIOLIN, lit "violin");
    (ECDF, lit "ecdf");
    (DENSITY_HEATMAP, lit "density heatmap");
    (DENSITY_CONTOUR, lit "density contour") ].

Section Headers.

(** [ColumnHeader] is declared in [mitosheet.types]; [str(s)] is Python's
    conversion of a header to a string. *)
Variable ColumnHeader : Type.
Variable py_str : ColumnHeader -> str.

Definition get_graph_title (x_axis_column_headers y_axis_column_headers :
    list ColumnHeader) (filtered : bool) (graph_type : str) : outcome str :=
  let graph_filter_label : option str :=
    if filtered then Some (lit "(first 1000 rows)") else None in
  let all_column_headers :=
    py_join (lit ", ")
      (map py_str (x_axis_column_headers ++ y_axis_column_headers)) in
  match dict_get GRAPH_TITLE_LABELS graph_type with
  | None => Raises (KeyError graph_type)
  | Some graph_title_label =>
      let graph_title_components :=
        match graph_filter_label with
        | Some label => [all_column_headers; label; graph_title_label]
        | None => [all_column_headers; graph_title_label]
        end in
      Returns (py_join (lit " ") graph_title_components)
  end.

End Headers.

End Title.

(** ** The next free graph tab name *)

Module TabName.

(** [str(n)] for a non-negative integer. *)
Definition str_of_nat (n : nat) : str :=
  lit (NilEmpty.string_of_uint (Nat.to_uint n)).

(** [f'graph{graph_number_indicator}']. *)
Definition graph_name (graph_number_indicator : nat) : str :=
  lit "graph" ++ str_of_nat graph_number_indicator.

Section Names.

Variable atom : Type.

(** [name == v] for a string [name] and any value [v]: a string equals
    strings only. (A value of another type whose own [==] accepts a string
    is outside this model; tab names are strings.) *)
Definition str_eq_val (name : str) (v : pyval atom) : bool :=
  match v with
  | PyStr s => str_eqb name s
  | _ => false
  end.

(** [name in all_graph_names]. *)
Definition py_in (name : str) (all_graph_names : list (pyval atom)) : bool :=
  existsb (str_eq_val name) all_graph_names.

(** The [for graph_data in graph_data_dict.values()] loop;
    [graph_data["graphTabName"]] raises when the key is missing. *)
Fixpoint collect_names (values : list (dict (pyval atom)))
    (all_graph_names : list (pyval atom)) : outcome (list (pyval atom)) :=
  match values with
  | [] => Returns all_graph_names
  | graph_data :: rest =>
      match dict_get graph_data (lit "graphTabName") with
      | None => Raises (KeyError (lit "graphTabName"))
      | Some name => collect_names rest (all_graph_names ++ [name])
      end
  end.

(** The [while new_graph_name in all_graph_names] loop. *)
Fixpoint probe (fuel : nat) (all_graph_names : list (pyval atom))
    (graph_number_indicator : nat) (new_graph_name : str) : outcome str :=
  match fuel with
  | O => OutOfFuel
  | S fuel' =>
      if py_in new_graph_name all_graph_names then
        let graph_number_indicator := S graph_number_indicator in
        probe fuel' all_graph_names graph_number_indicator
          (graph_name graph_number_indicator)
      else Returns new_graph_name
  end.

(** A list of [n] names cannot hold all of [graph0 .. graph<n>], so
    [S n] iterations are enough. *)
Definition get_new_graph_tab_name
    (graph_data_dict : dict (dict (pyval atom))) : outcome str :=
  match collect_names (map snd graph_data_dict) [] with
  | Returns all_graph_names =>
      probe (S (length all_graph_names)) all_graph_names 0 (graph_name 0)
  | Raises e => Raises e
  | OutOfFuel => OutOfFuel
  end.

End Names.

End TabName.

(** ** The parameter serializer *)

Module Serializer.

Definition TAB : str := lit "    ".

Section Converter.

Variable atom : Type.

(** [column_header_to_transpiled_code] is defined in
    [mitosheet.transpiler.transpile_utils]; it turns a value that is not a
    dictionary into its code literal. *)
Variable column_header_to_transpiled_code : pyval atom -> str.

(** One iteration of [for key, value in param_dict.items()], given the code
    chunk of the entry; the state is [(code, value_num)]. *)
Definition add_chunk (TAB_CONSTANT NEWLINE_CONSTANT : str) (level : nat)
    (state : str * nat) (code_chunk : str) : str * nat :=
  let '(code, value_num) := state in
  let code :=
    if negb (value_num =? 0) then code ++ lit ", " ++ NEWLINE_CONSTANT
    else code in
  let value_num := S value_num in
  let code := code ++ py_repeat TAB_CONSTANT (level + 1) in
  let code := code ++ code_chunk in
  (code, value_num).

(** [param_dict_to_code] on the dictionary [PyDict items]. The function is
    only ever applied to dictionaries: the top-level argument is one, and
    the recursive call sits under [isinstance(value, dict)]. *)
Fixpoint param_dict_to_code_rec (param_dict : pyval atom) (level : nat)
    (as_single_line : bool) : str :=
  match param_dict with
  | PyDict items =>
      let TAB_CONSTANT := if as_single_line then [] else TAB in
      let NEWLINE_CONSTANT := if as_single_line then [] else [nl] in
      let code :=
        if level =? 0 then NEWLINE_CONSTANT
        else lit "dict(" ++ NEWLINE_CONSTANT in
      let '(code, _) :=
        fold_left
          (fun state entry =>
             let '(key, value) := entry in
             let code_chunk :=
               match value with
               | PyDict _ =>
                   key ++ lit " = "
                       ++ param_dict_to_code_rec value (level + 1) false
               | _ => key ++ lit "=" ++ column_header_to_transpiled_code value
               end in
             add_chunk TAB_CONSTANT NEWLINE_CONSTANT level state code_chunk)
          items (code, 0) in
      if level =? 0 then code ++ NEWLINE_CONSTANT
      else code ++ NEWLINE_CONSTANT ++ py_repeat TAB_CONSTANT level ++ lit ")"
  | _ => []
  end.

Definition param_dict_to_code (param_dict : dict (pyval atom)) (level : nat)
    (as_single_line : bool) : str :=
  param_dict_to_code_rec (PyDict param_dict) level as_single_line.

(** The code chunk of one entry, as the loop of the source computes it:
    [key=literal] for a value that is not a dictionary, and for a
    dictionary [key = ] followed by the result of the recursive call
    [param_dict_to_code(value, level=level + 1)]. *)
Definition entry_code (level : nat) (entry : str * pyval atom) : str :=
  let '(key, value) := entry in
  match value with
  | PyDict items =>
      key ++ lit " = " ++ param_dict_to_code items (level + 1) false
  | _ => key ++ lit "=" ++ column_header_to_transpiled_code value
  end.

(** The spacing of an entry: [key=literal] for a value that is not a
    dictionary; [key = code] for a dictionary, [code] being the nested
    dictionary rendered one level down, in the one mode or the other. *)
Inductive entry_chunk (level : nat) : str * pyval atom -> str -> Prop :=
| chunk_atom : forall (key : str) (a : atom),
    entry_chunk level (key, PyAtom a)
      (key ++ lit "=" ++ column_header_to_transpiled_code (PyAtom a))
| chunk_str : forall (key s : str),
    entry_chunk level (key, PyStr s)
      (key ++ lit "=" ++ column_header_to_transpiled_code (PyStr s))
| chunk_dict : forall (key : str) (nested : dict (pyval atom))
                      (mode : bool),
    entry_chunk level (key, PyDict nested)
      (key ++ lit " = " ++ param_dict_to_code nested (level + 1) mode).

End Converter.

(** An entry as the specification words it: [key=value] on a single line,
    [key = value] otherwise. *)
Definition entry_as_specified (as_single_line : bool) (key value_code : str)
    : str :=
  key ++ (if as_single_line then lit "=" else lit " = ") ++ value_code.

End Serializer.

Import Extractor Title TabName Serializer.

(** ** What the claims speak about *)

(** [doc] has a well-formed inline-script block: some suffix of [doc] starts
    with the opening tag and has a closing tag further on. *)
Fixpoint has_block (doc : str) : bool :=
  match doc with
  | [] => false
  | _ :: doc' =>
      (starts_with script_open doc && occurs script_close doc)
      || has_block doc'
  end.

(** [script_blocks doc bodies]: read from left to right, [doc] is made of
    the blocks whose bodies are [bodies], in this order. A block is the
    first opening tag, the text up to the first closing tag after it (the
    body), and that closing tag; the next block is looked for after the
    closing tag. *)
Inductive script_blocks : str -> list str -> Prop :=
| blocks_end : forall doc,
    has_block doc = false ->
    script_blocks doc []
| blocks_next : forall pre body rest bodies,
    occurs script_open pre = false ->
    occurs script_close body = false ->
    script_blocks rest bodies ->
    script_blocks (pre ++ script_open ++ body ++ script_close ++ rest)
      (body :: bodies).

(** A script body followed by the statement terminator and a newline. *)
Definition terminated (body : str) : str := body ++ lit ";" ++ [nl].

(** A string without its spaces and newlines. *)
Definition is_space (c : ascii) : bool :=
  Ascii.eqb c " "%char || Ascii.eqb c nl.

Definition strip_spaces (s : str) : str :=
  filter (fun c => negb (is_space c)) s.

(** ** The optional column parameter of a graph *)

Module ColumnParam.

(** A call returns or raises; the exceptions are those of the state
    manager, besides [KeyError]. *)
Inductive result (E A : Type) : Type :=
| Ok (a : A)
| Err (e : E).

Arguments Ok {E A} a.
Arguments Err {E A} e.

Section StateManager.

Variable atom : Type.

(** The class [State] is declared in [mitosheet.state]. Of a state the
    function uses [state.column_ids.column_id_to_column_header[sheet_index]]
    (the column identifiers of a sheet; indexing may raise), the test
    [column_id in ... .keys()] (which may raise on an unhashable value) and
    [state.column_ids.get_column_header_by_id]. *)
Variables State ColumnHeader Keys Exn : Type.
Variable key_error : str -> Exn.
Variable column_id_to_column_header :
  State -> pyval atom -> result Exn Keys.
Variable in_keys : pyval atom -> Keys -> result Exn bool.
Variable get_column_header_by_id :
  State -> pyval atom -> pyval atom -> result Exn ColumnHeader.

Definition get_column_header_from_optional_column_id_graph_param
    (state : State) (graph_creation_params : dict (pyval atom))
    (param_name : str) : result Exn (option ColumnHeader) :=
  match dict_get graph_creation_params (lit "sheet_index") with
  | None => Err (key_error (lit "sheet_index"))
  | Some sheet_index =>
      match dict_get graph_creation_params param_name with
      | None => Ok None
      | Some column_id =>
          match column_id_to_column_header state sheet_index with
          | Err e => Err e
          | Ok keys =>
              match in_keys column_id keys with
              | Err e => Err e
              | Ok false => Ok None
              | Ok true =>
                  match get_column_header_by_id state sheet_index column_id
                  with
                  | Err e => Err e
                  | Ok column_header => Ok (Some column_header)
                  end
              end
          end
      end
  end.

End StateManager.

End ColumnParam.

(** ** The dependency check of the installer

    Source: [mitoinstaller/installer_steps/mitosheet_installer_steps.py]. *)

Module Installer.

(** An installer step returns, or raises [Exception(message)]. *)
Inductive step_outcome : Type :=
| StepReturns
| StepRaises (message : str).

Section Metadata.

(** The text of a list of names under [str.format]. *)
Variable format_names : list str -> str.

(** [install_step_mitosheet_check_dependencies], as a function of what
    [get_jupyterlab_metadata()] returns. *)
Definition install_step_mitosheet_check_dependencies
    (metadata : option str * list str) : step_outcome :=
  let '(jupyterlab_version, extension_names) := metadata in
  match jupyterlab_version with
  | None => StepReturns
  | Some version =>
      if starts_with (lit "3") version then StepReturns
      else if (Z.of_nat (length extension_names) =? 0)%Z then StepReturns
      else StepRaises (lit "Installed extensions "
                         ++ format_names extension_names)
  end.

End Metadata.

End Installer.

(** ** Parentheses of the generated code *)

(** Opening minus closing parentheses of a text. *)
Definition paren_balance (s : str) : Z :=
  (Z.of_nat (count_occ ascii_dec s "("%char)
   - Z.of_nat (count_occ ascii_dec s ")"%char))%Z.

Section Balanced.

Variable atom : Type.
Variable column_header_to_transpiled_code : pyval atom -> str.

(** The keys of a value and the literals of its parts, at every depth, have
    as many opening as closing parentheses. *)
Inductive balanced : pyval atom -> Prop :=
| balanced_atom : forall a,
    paren_balance (column_header_to_transpiled_code (PyAtom a)) = 0%Z ->
    balanced (PyAtom a)
| balanced_str : forall s,
    paren_balance (column_header_to_transpiled_code (PyStr s)) = 0%Z ->
    balanced (PyStr s)
| balanced_dict : forall items,
    Forall (fun entry =>
              paren_balance (fst entry) = 0%Z /\ balanced (snd entry))
      items ->
    balanced (PyDict items).

End Balanced.

(** ** Instances used in the examples *)

(** A rendering engine whose figures are their own rendering. *)
Definition render_as_is (fig : str) (_ : bool) (_ _ : Z) : str := fig.

(** [str(s)] of a header that is a string is the string itself. *)
Definition str_of_str (s : str) : str := s.

(** A converter under which every value has the literal [1]. *)
Definition literal_one (_ : pyval unit) : str := lit "1".

(** A state manager over two sheets, given by the column identifiers and
    headers of each; the sheet index is [0] for an atom [false] and [1] for
    an atom [true], and column identifiers are strings. *)
Definition two_sheets : Type := dict str * dict str.

Definition sheet_of (state : two_sheets) (sheet_index : pyval bool)
    : ColumnParam.result str (dict str) :=
  match sheet_index with
  | PyAtom false => ColumnParam.Ok (fst state)
  | PyAtom true => ColumnParam.Ok (snd state)
  | _ => ColumnParam.Err (lit "TypeError")
  end.

Definition id_in_sheet (column_id : pyval bool) (sheet : dict str)
    : ColumnParam.result str bool :=
  match column_id with
  | PyStr s =>
      ColumnParam.Ok
        (match dict_get sheet s with Some _ => true | None => false end)
  | PyAtom _ => ColumnParam.Ok false
  | PyDict _ => ColumnParam.Err (lit "TypeError")
  end.

Definition header_of (state : two_sheets) (sheet_index column_id : pyval bool)
    : ColumnParam.result str str :=
  match sheet_of state sheet_index, column_id with
  | ColumnParam.Ok sheet, PyStr s =>
      match dict_get sheet s with
      | Some header => ColumnParam.Ok header
      | None => ColumnParam.Err (lit "KeyError")
      end
  | ColumnParam.Err e, _ => ColumnParam.Err e
  | _, _ => ColumnParam.Err (lit "KeyError")
  end.

(** A rendering of a list of names that keeps the names only. *)
Definition names_joined (names : list str) : str := py_join (lit ", ") names.

(** * Properties *)

(** ** Strings *)

Lemma str_eqb_refl (s : str) : str_eqb s s = true.
Proof.
  induction s as [|a s IH]; simpl; trivial.
  now rewrite Ascii.eqb_refl.
Qed.

Lemma str_eqb_eq (s t : str) : str_eqb s t = true <-> s = t.
Proof.
  split.
  - revert t; induction s as [|a s IH]; intros [|b t]; simpl; try easy.
    intros H. apply andb_true_iff in H as [Hab Hst].
    apply Ascii.eqb_eq in Hab. f_equal; auto.
  - intros ->. apply str_eqb_refl.
Qed.

Lemma str_eqb_neq (s t : str) : str_eqb s t = false <-> s <> t.
Proof.
  rewrite <- str_eqb_eq. destruct (str_eqb s t); split; congruence.
Qed.

Lemma len_app (s t : str) : len (s ++ t) = (len s + len t)%Z.
Proof. unfold len. rewrite length_app. lia. Qed.

Lemma len_nonneg (s : str) : (0 <= len s)%Z.
Proof. unfold len. lia. Qed.

Lemma starts_with_app (sub t : str) : starts_with sub (sub ++ t) = true.
Proof.
  induction sub as [|a sub IH]; simpl; trivial.
  now rewrite Ascii.eqb_refl.
Qed.

Lemma starts_with_split (sub s : str) :
  starts_with sub s = true -> s = sub ++ skipn (length sub) s.
Proof.
  revert s; induction sub as [|a sub IH]; intros s H; simpl in *; trivial.
  destruct s as [|b s]; [discriminate|].
  apply andb_true_iff in H as [Hab Hs].
  apply Ascii.eqb_eq in Hab. subst b. simpl. f_equal. auto.
Qed.

Lemma starts_with_longer (sub s t : str) :
  starts_with sub s = true -> starts_with sub (s ++ t) = true.
Proof.
  revert s; induction sub as [|a sub IH]; intros s H; simpl in *; trivial.
  destruct s as [|b s]; [discriminate|]. simpl.
  apply andb_true_iff in H as [Hab Hs]. rewrite Hab. simpl. auto.
Qed.

Lemma starts_with_short (sub s : str) :
  length s < length sub -> starts_with sub s = false.
Proof.
  revert s; induction sub as [|a sub IH]; intros s H; simpl in *; [lia|].
  destruct s as [|b s]; trivial. simpl in H.
  rewrite IH by lia. apply andb_false_r.
Qed.

Lemma occurs_app_r (sub s t : str) :
  occurs sub t = true -> occurs sub (s ++ t) = true.
Proof.
  intros H. induction s as [|a s IH]; simpl; trivial.
  rewrite IH. apply orb_true_r.
Qed.

Lemma occurs_app_l (sub s t : str) :
  occurs sub s = true -> occurs sub (s ++ t) = true.
Proof.
  induction s as [|a s IH]; simpl; intros H.
  - destruct sub; [|discriminate]. destruct t; reflexivity.
  - apply orb_true_iff in H as [H|H].
    + change (a :: s ++ t) with ((a :: s) ++ t).
      rewrite (starts_with_longer _ _ t H). reflexivity.
    + rewrite IH by assumption. apply orb_true_r.
Qed.

Lemma occurs_short (sub s : str) :
  length s < length sub -> occurs sub s = false.
Proof.
  induction s as [|a s IH]; intros H.
  - simpl. now apply starts_with_short.
  - simpl. rewrite starts_with_short by assumption.
    simpl in H. rewrite IH by lia. reflexivity.
Qed.

(** [first_occ] finds something exactly when there is an occurrence. *)
Lemma first_occ_None (sub s : str) :
  first_occ sub s = None <-> occurs sub s = false.
Proof.
  induction s as [|a s IH]; simpl.
  - destruct (starts_with sub []); split; congruence.
  - destruct (starts_with sub (a :: s)); simpl; [split; congruence|].
    rewrite <- IH. destruct (first_occ sub s); simpl; split; congruence.
Qed.

(** What [first_occ] finds is an occurrence, within [s], and nothing occurs
    before it. *)
Lemma first_occ_Some (sub s : str) (k : nat) :
  first_occ sub s = Some k ->
  k <= length s /\ starts_with sub (skipn k s) = true
  /\ (sub <> [] -> occurs sub (firstn k s) = false).
Proof.
  revert k; induction s as [|a s IH]; simpl; intros k H.
  - destruct (starts_with sub []) eqn:E; [|discriminate].
    injection H as <-. simpl. repeat split; trivial.
    intros Hne. destruct sub; [easy|reflexivity].
  - destruct (starts_with sub (a :: s)) eqn:E.
    + injection H as <-. simpl. repeat split; [lia|trivial|].
      intros Hne. destruct sub; [easy|reflexivity].
    + destruct (first_occ sub s) as [j|] eqn:Ej; [|discriminate].
      injection H as <-. destruct (IH j eq_refl) as (Hle & Hsw & Hno).
      simpl. repeat split; [lia|trivial|].
      intros Hne. rewrite (Hno Hne), orb_false_r.
      destruct (starts_with sub (a :: firstn j s)) eqn:E'; trivial.
      apply (starts_with_longer _ _ (skipn j s)) in E'.
      simpl in E'. rewrite firstn_skipn in E'. congruence.
Qed.

(** ** Tags

    Each of the four markers of the extractor starts with the character
    [<] and has no other [<]. Two occurrences of such a tag never overlap,
    and an occurrence cannot run into the start of another tag. *)

Section Tag.

Variable c0 : ascii.
Variable tag' : str.
Hypothesis fresh : ~ In c0 tag'.

#[local] Abbreviation tag := (c0 :: tag').

Lemma starts_with_cut (sub s t : str) :
  ~ In c0 sub ->
  starts_with sub (s ++ c0 :: t) = true -> starts_with sub s = true.
Proof.
  revert s; induction sub as [|a sub IH]; intros s Hin H; simpl in *; trivial.
  destruct s as [|b s]; simpl in H.
  - apply andb_true_iff in H as [Hab _]. apply Ascii.eqb_eq in Hab.
    exfalso. apply Hin. now left.
  - apply andb_true_iff in H as [Hab Hs]. rewrite Hab. simpl.
    apply IH with (s := s); auto.
Qed.

(** An occurrence of the tag that starts before another [<] ends before
    it. *)
Lemma tag_starts_with_cut (s t : str) :
  s <> [] ->
  starts_with tag (s ++ c0 :: t) = true -> starts_with tag s = true.
Proof.
  intros Hne H. destruct s as [|b s]; [easy|].
  simpl in *.
  apply andb_true_iff in H as [Hab Hs]. rewrite Hab. simpl.
  now apply starts_with_cut with (t := t).
Qed.

Lemma tag_first_occ_app (pre post : str) :
  occurs tag pre = false ->
  first_occ tag (pre ++ tag ++ post) = Some (length pre).
Proof.
  induction pre as [|a pre IH]; intros H.
  - change ([] ++ tag ++ post) with (tag ++ post).
    assert (Hs := starts_with_app tag post).
    simpl in *. now rewrite Hs.
  - cbn [occurs] in H. apply orb_false_iff in H as [Hsw Hocc].
    change ((a :: pre) ++ tag ++ post) with (a :: pre ++ tag ++ post).
    cbn [first_occ].
    destruct (starts_with tag (a :: pre ++ tag ++ post)) eqn:E.
    + change (a :: pre ++ tag ++ post) with ((a :: pre) ++ c0 :: tag' ++ post)
        in E.
      apply tag_starts_with_cut in E; [congruence|easy].
    + rewrite IH by assumption. reflexivity.
Qed.

(** No occurrence of the tag in [s] nor in [t], and [t] starts with [<]:
    no occurrence in [s ++ t] before [t]. *)
Lemma tag_occurs_app (s t : str) :
  occurs tag s = false ->
  occurs tag (c0 :: t) = false ->
  occurs tag (s ++ c0 :: t) = false.
Proof.
  intros Hs Ht. induction s as [|a s IH]; [exact Ht|].
  cbn [occurs] in Hs. apply orb_false_iff in Hs as [Hsw Hocc].
  change ((a :: s) ++ c0 :: t) with (a :: s ++ c0 :: t). cbn [occurs].
  rewrite IH by assumption. rewrite orb_false_r.
  destruct (starts_with tag (a :: s ++ c0 :: t)) eqn:E; trivial.
  change (a :: s ++ c0 :: t) with ((a :: s) ++ c0 :: t) in E.
  apply tag_starts_with_cut in E; [congruence|easy].
Qed.

(** An occurrence can be split off at its first position. *)
Lemma tag_occurs_split (s : str) :
  occurs tag s = true ->
  exists pre post, s = pre ++ tag ++ post /\ occurs tag pre = false.
Proof.
  intros H. destruct (first_occ tag s) as [k|] eqn:E.
  - apply first_occ_Some in E as (Hle & Hsw & Hno).
    exists (firstn k s), (skipn (length tag) (skipn k s)). split.
    + rewrite <- (starts_with_split _ _ Hsw). now rewrite firstn_skipn.
    + apply Hno. discriminate.
  - apply first_occ_None in E. congruence.
Qed.

End Tag.

(** ** [find] and slices at known positions *)

Lemma py_find_at (done rest sub : str) :
  py_find (done ++ rest) sub (len done) =
  match first_occ sub rest with
  | Some k => (len done + Z.of_nat k)%Z
  | None => (-1)%Z
  end.
Proof.
  unfold py_find. rewrite len_app.
  pose proof (len_nonneg done) as Hd. pose proof (len_nonneg rest) as Hr.
  destruct (Z.ltb_spec (len done) 0); [lia|].
  destruct (Z.ltb_spec (len done + len rest) (len done)); [lia|].
  unfold len at 1. rewrite Nat2Z.id.
  rewrite skipn_app, skipn_all, Nat.sub_diag. reflexivity.
Qed.

Lemma py_find_0 (s sub : str) :
  py_find s sub 0 =
  match first_occ sub s with
  | Some k => Z.of_nat k
  | None => (-1)%Z
  end.
Proof.
  apply (py_find_at [] s sub).
Qed.

Lemma py_slice_mid (a b c : str) :
  py_slice (a ++ b ++ c) (len a) (len a + len b) = b.
Proof.
  unfold py_slice, slice_bound. rewrite !len_app.
  pose proof (len_nonneg a). pose proof (len_nonneg b).
  pose proof (len_nonneg c).
  destruct (Z.ltb_spec (len a) 0); [lia|].
  destruct (Z.ltb_spec (len a + len b) 0); [lia|].
  rewrite !Z.min_l by lia.
  replace (len a + len b - len a)%Z with (len b) by lia.
  unfold len. rewrite !Nat2Z.id.
  rewrite skipn_app, skipn_all, Nat.sub_diag. simpl.
  rewrite firstn_app, firstn_all, Nat.sub_diag. simpl. apply app_nil_r.
Qed.

(** ** The four markers *)

Lemma div_open_fresh : ~ In "<"%char (tl div_open).
Proof. cbv. intuition discriminate. Qed.

Lemma div_close_fresh : ~ In "<"%char (tl div_close).
Proof. cbv. intuition discriminate. Qed.

Lemma script_open_fresh : ~ In "<"%char (tl script_open).
Proof. cbv. intuition discriminate. Qed.

Lemma script_close_fresh : ~ In "<"%char (tl script_close).
Proof. cbv. intuition discriminate. Qed.

Lemma script_open_first_occ (pre post : str) :
  occurs script_open pre = false ->
  first_occ script_open (pre ++ script_open ++ post) = Some (length pre).
Proof. exact (@tag_first_occ_app _ _ script_open_fresh pre post). Qed.

Lemma script_close_first_occ (pre post : str) :
  occurs script_close pre = false ->
  first_occ script_close (pre ++ script_close ++ post) = Some (length pre).
Proof. exact (@tag_first_occ_app _ _ script_close_fresh pre post). Qed.

Lemma div_open_first_occ (pre post : str) :
  occurs div_open pre = false ->
  first_occ div_open (pre ++ div_open ++ post) = Some (length pre).
Proof. exact (@tag_first_occ_app _ _ div_open_fresh pre post). Qed.

Lemma div_close_first_occ (pre post : str) :
  occurs div_close pre = false ->
  first_occ div_close (pre ++ div_close ++ post) = Some (length pre).
Proof. exact (@tag_first_occ_app _ _ div_close_fresh pre post). Qed.

(** A closing script tag cannot start inside an opening script tag. *)
Lemma script_close_after_open (t : str) :
  first_occ script_close (script_open ++ t) =
  option_map (Nat.add 31) (first_occ script_close t).
Proof.
  transitivity (Nat.iter 31 (option_map S) (first_occ script_close t));
    [reflexivity|].
  destruct (first_occ script_close t); reflexivity.
Qed.

Lemma occurs_script_close_open (t : str) :
  occurs script_close (script_open ++ t) = occurs script_close t.
Proof. reflexivity. Qed.

(** Nor can a closing [div] tag start inside the container marker. *)
Lemma div_close_after_open (t : str) :
  first_occ div_close (div_open ++ t) =
  option_map (Nat.add 8) (first_occ div_close t).
Proof.
  transitivity (Nat.iter 8 (option_map S) (first_occ div_close t));
    [reflexivity|].
  destruct (first_occ div_close t); reflexivity.
Qed.

(** ** The scanning loop *)

Lemma len_script_open : len script_open = 31%Z.
Proof. reflexivity. Qed.

Lemma len_script_close : len script_close = 9%Z.
Proof. reflexivity. Qed.

Ltac len_norm :=
  rewrite ?len_app, ?len_script_open, ?len_script_close.

(** One iteration over a well-formed block: the body is appended with its
    terminator and the cursor moves past the closing tag. *)
Lemma script_loop_step (fuel : nat) (done pre body rest acc : str) :
  occurs script_open pre = false ->
  occurs script_close body = false ->
  script_loop (S fuel)
    (done ++ pre ++ script_open ++ body ++ script_close ++ rest)
    (len done) acc =
  script_loop fuel
    (done ++ pre ++ script_open ++ body ++ script_close ++ rest)
    (len (done ++ pre ++ script_open ++ body ++ script_close))
    (acc ++ terminated body).
Proof.
  intros Hpre Hbody.
  set (doc := done ++ pre ++ script_open ++ body ++ script_close ++ rest).
  pose proof (len_nonneg done) as Hd. pose proof (len_nonneg pre) as Hp.
  pose proof (len_nonneg body) as Hb. pose proof (len_nonneg rest) as Hr.
  assert (Hstart : py_find doc script_open (len done) = len (done ++ pre)).
  { unfold doc. rewrite py_find_at, script_open_first_occ by assumption.
    rewrite len_app. reflexivity. }
  assert (Hend : py_find doc script_close (len (done ++ pre)) =
                 len (done ++ pre ++ script_open ++ body)).
  { unfold doc. rewrite (app_assoc done pre).
    rewrite py_find_at, script_close_after_open, script_close_first_occ
      by assumption.
    cbn [option_map]. rewrite Nat2Z.inj_add. len_norm. unfold len. lia. }
  assert (Hslice : py_slice doc (len (done ++ pre) + len script_open)
                     (len (done ++ pre ++ script_open ++ body)) = body).
  { unfold doc.
    replace (done ++ pre ++ script_open ++ body ++ script_close ++ rest)
      with ((done ++ pre ++ script_open) ++ body ++ script_close ++ rest)
      by now rewrite <- !app_assoc.
    replace (len (done ++ pre) + len script_open)%Z
      with (len (done ++ pre ++ script_open)) by (len_norm; lia).
    replace (len (done ++ pre ++ script_open ++ body))
      with (len (done ++ pre ++ script_open) + len body)%Z
      by (len_norm; lia).
    apply py_slice_mid. }
  cbn [script_loop]. rewrite Hstart, Hend, Hslice.
  assert (Hlt : (len done <? len doc)%Z = true).
  { apply Z.ltb_lt. unfold doc. len_norm. lia. }
  rewrite Hlt.
  assert (H1 : (len (done ++ pre) =? -1)%Z = false).
  { apply Z.eqb_neq. len_norm. lia. }
  assert (H2 : (len (done ++ pre ++ script_open ++ body) =? -1)%Z = false).
  { apply Z.eqb_neq. len_norm. lia. }
  rewrite H1, H2. cbn [orb].
  replace (len (done ++ pre ++ script_open ++ body) + 9)%Z
    with (len (done ++ pre ++ script_open ++ body ++ script_close))
    by (len_norm; lia).
  reflexivity.
Qed.

Lemma has_block_intro (k : nat) (doc : str) :
  starts_with script_open (skipn k doc) = true ->
  occurs script_close (skipn k doc) = true ->
  has_block doc = true.
Proof.
  revert k; induction doc as [|a doc IH]; intros k Hs Hc.
  - rewrite skipn_nil in Hs. discriminate.
  - cbn [has_block]. destruct k as [|k]; cbn [skipn] in Hs, Hc.
    + rewrite Hs, Hc. reflexivity.
    + rewrite (IH k Hs Hc). apply orb_true_r.
Qed.

(** Without a well-formed block ahead, the loop ends and leaves the script
    as it is. *)
Lemma script_loop_stop (fuel : nat) (done tail acc : str) :
  has_block tail = false ->
  script_loop (S fuel) (done ++ tail) (len done) acc = Returns acc.
Proof.
  intros Hnone. cbn [script_loop].
  destruct (len done <? len (done ++ tail))%Z; [|reflexivity].
  rewrite py_find_at.
  destruct (first_occ script_open tail) as [k|] eqn:Ek; [|reflexivity].
  apply first_occ_Some in Ek as (Hle & Hsw & _).
  replace (py_find (done ++ tail) script_close (len done + Z.of_nat k))
    with (-1)%Z; [now rewrite orb_true_r|].
  rewrite <- (firstn_skipn k tail) at 1. rewrite app_assoc.
  replace (len done + Z.of_nat k)%Z with (len (done ++ firstn k tail)).
  - rewrite py_find_at.
    destruct (first_occ script_close (skipn k tail)) as [j|] eqn:Ej;
      [|reflexivity].
    exfalso. assert (Hocc : occurs script_close (skipn k tail) = true).
    { destruct (occurs script_close (skipn k tail)) eqn:E; trivial.
      apply first_occ_None in E. congruence. }
    rewrite (has_block_intro k tail Hsw Hocc) in Hnone. discriminate.
  - rewrite len_app. unfold len. rewrite length_firstn. lia.
Qed.

Lemma script_blocks_length (doc : str) (bodies : list str) :
  script_blocks doc bodies -> length bodies <= length doc.
Proof.
  induction 1 as [doc H|pre body rest bodies Hp Hb Hr IH].
  - cbn [length]. lia.
  - rewrite !length_app.
    change (length (body :: bodies)) with (S (length bodies)).
    change (length script_open) with 31. lia.
Qed.

(** From any cursor, the loop appends the bodies of the blocks ahead, each
    with its terminator, in the order of the document. *)
Lemma script_loop_blocks (tail : str) (bodies : list str) :
  script_blocks tail bodies ->
  forall (fuel : nat) (done acc : str),
    length bodies < fuel ->
    script_loop fuel (done ++ tail) (len done) acc =
    Returns (acc ++ concat (map terminated bodies)).
Proof.
  induction 1 as [doc H|pre body rest bodies Hp Hb Hr IH];
    intros fuel done acc Hfuel.
  - destruct fuel as [|fuel]; [simpl in Hfuel; lia|].
    rewrite script_loop_stop by assumption. simpl. now rewrite app_nil_r.
  - destruct fuel as [|fuel]; [simpl in Hfuel; lia|].
    rewrite script_loop_step by assumption.
    replace (done ++ pre ++ script_open ++ body ++ script_close ++ rest)
      with ((done ++ pre ++ script_open ++ body ++ script_close) ++ rest)
      by now rewrite <- !app_assoc.
    rewrite IH by (simpl in Hfuel; lia).
    simpl. now rewrite <- app_assoc.
Qed.

(** ** Documents and their blocks *)

Lemma has_block_occurs_close (doc : str) :
  has_block doc = true -> occurs script_close doc = true.
Proof.
  induction doc as [|a doc IH]; [discriminate|].
  cbn [has_block occurs]. intros H.
  apply orb_true_iff in H as [H|H].
  - apply andb_true_iff in H as [_ H]. exact H.
  - rewrite (IH H). apply orb_true_r.
Qed.

(** A document with a block starts with some text without opening tag,
    then the opening tag, then a text with a closing tag. *)
Lemma has_block_split (doc : str) :
  has_block doc = true ->
  exists pre tail,
    doc = pre ++ script_open ++ tail
    /\ occurs script_open pre = false
    /\ occurs script_close tail = true.
Proof.
  induction doc as [|a doc IH]; [discriminate|].
  intros H. destruct (starts_with script_open (a :: doc)) eqn:Esw.
  - exists [], (skipn (length script_open) (a :: doc)).
    pose proof (starts_with_split _ _ Esw) as Hsplit.
    repeat split; [exact Hsplit|].
    rewrite <- occurs_script_close_open, <- Hsplit.
    now apply has_block_occurs_close.
  - cbn [has_block] in H. rewrite Esw in H. cbn [andb orb] in H.
    destruct (IH H) as (pre & tail & Hdoc & Hpre & Htail).
    exists (a :: pre), tail. subst doc. repeat split; trivial.
    cbn [occurs]. rewrite Hpre, orb_false_r.
    destruct (starts_with script_open (a :: pre)) eqn:E; trivial.
    apply (starts_with_longer _ _ (script_open ++ tail)) in E.
    change ((a :: pre) ++ script_open ++ tail)
      with (a :: pre ++ script_open ++ tail) in E.
    congruence.
Qed.

(** Every document is made of blocks. *)
Lemma script_blocks_total (doc : str) :
  exists bodies, script_blocks doc bodies.
Proof.
  remember (length doc) as n eqn:Hn.
  revert doc Hn. induction n as [n IH] using lt_wf_ind. intros doc Hn.
  destruct (has_block doc) eqn:Hb.
  - destruct (has_block_split doc Hb) as (pre & tail & Hdoc & Hpre & Htail).
    destruct (@tag_occurs_split "<"%char (tl script_close) tail Htail)
      as (body & rest & Htl & Hbody).
    destruct (IH (length rest)) with (doc := rest) as [bodies Hbs];
      [|reflexivity|].
    + subst n doc tail. rewrite !length_app.
      change (length script_open) with 31.
      change (length ("<"%char :: tl script_close)) with 9. lia.
    + exists (body :: bodies). subst doc tail.
      now apply blocks_next.
  - exists []. now apply blocks_end.
Qed.

Lemma has_block_open_tail (tail : str) :
  has_block (script_open ++ tail) = occurs script_close tail || has_block tail.
Proof. reflexivity. Qed.

(** An opening tag with no closing tag after it adds no block to what
    comes before. *)
Lemma has_block_unterminated (pre tail : str) :
  has_block pre = false ->
  occurs script_close tail = false ->
  has_block (pre ++ script_open ++ tail) = false.
Proof.
  intros Hpre Htail. induction pre as [|a pre IH].
  - change ([] ++ script_open ++ tail) with (script_open ++ tail).
    rewrite has_block_open_tail, Htail.
    destruct (has_block tail) eqn:E; trivial.
    apply has_block_occurs_close in E. congruence.
  - cbn [has_block] in Hpre. apply orb_false_iff in Hpre as [Hhead Hrest].
    change ((a :: pre) ++ script_open ++ tail)
      with (a :: pre ++ script_open ++ tail).
    cbn [has_block]. rewrite (IH Hrest), orb_false_r.
    destruct (starts_with script_open (a :: pre ++ script_open ++ tail))
      eqn:E; trivial.
    change (a :: pre ++ script_open ++ tail)
      with ((a :: pre) ++ "<"%char :: (tl script_open ++ tail)) in *.
    apply (@tag_starts_with_cut _ _ script_open_fresh) in E; [|easy].
    change (starts_with script_open (a :: pre) = true) in E.
    rewrite E in Hhead. cbn [andb] in Hhead.
    apply (@tag_occurs_app _ _ script_close_fresh); trivial.
Qed.

Lemma script_blocks_unterminated (pre tail : str) (bodies : list str) :
  occurs script_close tail = false ->
  script_blocks pre bodies ->
  script_blocks (pre ++ script_open ++ tail) bodies.
Proof.
  intros Htail. induction 1 as [doc H|p body rest bodies Hp Hb Hr IH].
  - apply blocks_end. now apply has_block_unterminated.
  - replace ((p ++ script_open ++ body ++ script_close ++ rest)
               ++ script_open ++ tail)
      with (p ++ script_open ++ body ++ script_close
              ++ (rest ++ script_open ++ tail))
      by now rewrite <- !app_assoc.
    now apply blocks_next.
Qed.

(** ** The extractor on a document *)

Lemma extract_script (doc : str) (bodies : list str) :
  script_blocks doc bodies ->
  exists markup,
    extract doc = Returns (mk_fragments markup (concat (map terminated bodies))).
Proof.
  intros H. unfold extract.
  pose proof (script_blocks_length H) as Hlen.
  pose proof (@script_loop_blocks doc bodies H (S (length doc)) [] []) as Hl.
  simpl app in Hl. change (len []) with 0%Z in Hl.
  rewrite Hl by lia. eexists. reflexivity.
Qed.

Lemma extract_markup_found (pre mid rest : str) :
  occurs div_open pre = false ->
  occurs div_close mid = false ->
  exists s,
    extract (pre ++ div_open ++ mid ++ div_close ++ rest) =
    Returns (mk_fragments (div_open ++ mid) s).
Proof.
  intros Hpre Hmid.
  set (doc := pre ++ div_open ++ mid ++ div_close ++ rest).
  destruct (script_blocks_total doc) as [bodies Hb].
  destruct (extract_script Hb) as [markup He].
  exists (concat (map terminated bodies)). rewrite He. do 2 f_equal.
  unfold extract in He.
  destruct (script_loop (S (length doc)) doc 0 []); try discriminate.
  injection He as <- _.
  assert (Hstart : py_find doc div_open 0 = len pre).
  { unfold doc. rewrite py_find_0, div_open_first_occ by assumption.
    reflexivity. }
  rewrite Hstart.
  assert (Hend : py_find doc div_close (len pre) =
                 (len pre + len (div_open ++ mid))%Z).
  { unfold doc. rewrite py_find_at, div_close_after_open.
    rewrite div_close_first_occ by assumption. cbn [option_map].
    rewrite len_app. change (len div_open) with 8%Z. unfold len. lia. }
  rewrite Hend. unfold doc.
  replace (pre ++ div_open ++ mid ++ div_close ++ rest)
    with (pre ++ (div_open ++ mid) ++ div_close ++ rest)
    by now rewrite <- !app_assoc.
  apply py_slice_mid.
Qed.

Lemma extract_markup_missing (doc : str) :
  occurs div_open doc = false ->
  exists s, extract doc = Returns (mk_fragments [] s).
Proof.
  intros Hno.
  destruct (script_blocks_total doc) as [bodies Hb].
  destruct (extract_script Hb) as [markup He].
  exists (concat (map terminated bodies)). rewrite He. do 2 f_equal.
  unfold extract in He.
  destruct (script_loop (S (length doc)) doc 0 []); try discriminate.
  injection He as <- _.
  apply first_occ_None in Hno.
  rewrite py_find_0, Hno.
  assert (Hend : py_find doc div_close (-1) = (-1)%Z).
  { unfold py_find. pose proof (len_nonneg doc) as Hn.
    change (-1 <? 0)%Z with true. cbv iota.
    destruct (Z.ltb_spec (len doc) (Z.max 0 (-1 + len doc))); [lia|].
    assert (Hnone : first_occ div_close
                      (skipn (Z.to_nat (Z.max 0 (-1 + len doc))) doc) = None).
    { apply first_occ_None, occurs_short. rewrite length_skipn.
      change (length div_close) with 6. unfold len. lia. }
    now rewrite Hnone. }
  rewrite Hend. unfold py_slice. rewrite Z.sub_diag. reflexivity.
Qed.

(** ** Claims about [get_html_and_script_from_figure] *)

Section ExtractorClaims.

Variable Figure : Type.
Variable write_html : Figure -> bool -> Z -> Z -> str.

(** C1. When the rendered document has the container marker and a closing
    [div] tag after it, the returned markup runs from the start of the
    marker up to, and not including, the closing tag: the slice ends where
    [find] located the closing tag. The markup is therefore never the outer
    text of the container element, which the claim (and the comment above
    the slice in the source) describes. *)
Theorem markup_stops_before_closing_tag :
  forall (fig : Figure) (height width : Z) (include_plotlyjs : bool)
         (pre mid rest : str),
    write_html fig include_plotlyjs height width =
      pre ++ div_open ++ mid ++ div_close ++ rest ->
    occurs div_open pre = false ->
    occurs div_close mid = false ->
    (exists s,
       get_html_and_script_from_figure write_html fig height width
         include_plotlyjs = Returns (mk_fragments (div_open ++ mid) s))
    /\ div_open ++ mid <> div_open ++ mid ++ div_close.
Proof.
  intros fig height width include_plotlyjs pre mid rest Hdoc Hpre Hmid.
  split.
  - unfold get_html_and_script_from_figure. rewrite Hdoc.
    now apply extract_markup_found.
  - intros Heq. apply (f_equal (@length ascii)) in Heq.
    rewrite !length_app in Heq. change (length div_close) with 6 in Heq.
    lia.
Qed.

(** C2, as the code has it. When the rendered document has no container
    marker, the call returns normally and the markup is the empty string:
    [find] answers [-1] twice and the slice [[-1:-1]] is empty. *)
Theorem markup_empty_without_marker :
  forall (fig : Figure) (height width : Z) (include_plotlyjs : bool),
    occurs div_open (write_html fig include_plotlyjs height width) = false ->
    exists s,
      get_html_and_script_from_figure write_html fig height width
        include_plotlyjs = Returns (mk_fragments [] s).
Proof.
  intros fig height width include_plotlyjs Hno.
  unfold get_html_and_script_from_figure. now apply extract_markup_missing.
Qed.

(** C4. Every rendered document is made of inline-script blocks read from
    left to right, and the returned script is the concatenation, in that
    order, of the bodies of these blocks, each followed by [;] and a
    newline. With no block the script is empty. *)
Theorem script_concatenates_bodies :
  forall (fig : Figure) (height width : Z) (include_plotlyjs : bool),
    (exists bodies,
       script_blocks (write_html fig include_plotlyjs height width) bodies)
    /\
    (forall bodies,
       script_blocks (write_html fig include_plotlyjs height width) bodies ->
       exists markup,
         get_html_and_script_from_figure write_html fig height width
           include_plotlyjs =
         Returns (mk_fragments markup (concat (map terminated bodies))))
    /\
    (has_block (write_html fig include_plotlyjs height width) = false ->
     exists markup,
       get_html_and_script_from_figure write_html fig height width
         include_plotlyjs = Returns (mk_fragments markup [])).
Proof.
  intros fig height width include_plotlyjs. repeat split.
  - apply script_blocks_total.
  - intros bodies Hb. unfold get_html_and_script_from_figure.
    now apply extract_script.
  - intros Hnone. unfold get_html_and_script_from_figure.
    apply (@extract_script _ []). now apply blocks_end.
Qed.

(** C10. When an opening script tag has no closing tag after it, the call
    returns normally and the script holds the bodies of the blocks that
    come before that tag, and nothing else. *)
Theorem unterminated_block_ignored :
  forall (fig : Figure) (height width : Z) (include_plotlyjs : bool)
         (pre tail : str) (bodies : list str),
    write_html fig include_plotlyjs height width =
      pre ++ script_open ++ tail ->
    occurs script_close tail = false ->
    script_blocks pre bodies ->
    exists markup,
      get_html_and_script_from_figure write_html fig height width
        include_plotlyjs =
      Returns (mk_fragments markup (concat (map terminated bodies))).
Proof.
  intros fig height width include_plotlyjs pre tail bodies Hdoc Htail Hb.
  unfold get_html_and_script_from_figure. rewrite Hdoc.
  apply extract_script. now apply script_blocks_unterminated.
Qed.

End ExtractorClaims.

Lemma markup_stops_before_closing_tag_witness :
  (exists s,
     get_html_and_script_from_figure render_as_is
       ([] ++ div_open
           ++ (quoted "g" ++ lit " class=" ++ quoted "plotly-graph-div"
                 ++ lit ">")
           ++ div_close ++ [])
       425 970 false =
     Returns
       (mk_fragments
          (lit "<div id=" ++ quoted "g" ++ lit " class="
             ++ quoted "plotly-graph-div" ++ lit ">")
          s))
  /\ div_open
       ++ (quoted "g" ++ lit " class=" ++ quoted "plotly-graph-div"
             ++ lit ">")
     <> div_open
          ++ (quoted "g" ++ lit " class=" ++ quoted "plotly-graph-div"
                ++ lit ">")
          ++ div_close.
Proof.
  apply (@markup_stops_before_closing_tag str render_as_is
           ([] ++ div_open
               ++ (quoted "g" ++ lit " class=" ++ quoted "plotly-graph-div"
                     ++ lit ">")
               ++ div_close ++ [])
           425%Z 970%Z false []
           (quoted "g" ++ lit " class=" ++ quoted "plotly-graph-div"
              ++ lit ">")
           []);
    reflexivity.
Defined.

Lemma markup_not_missing_counterexample :
  occurs div_open (lit "<p>no chart</p>") = false
  /\ get_html_and_script_from_figure render_as_is (lit "<p>no chart</p>")
       425 970 false = Returns (mk_fragments [] []).
Proof. split; reflexivity. Qed.

Lemma markup_empty_without_marker_witness :
  exists s,
    get_html_and_script_from_figure render_as_is (lit "<p>no chart</p>")
      425 970 false = Returns (mk_fragments [] s).
Proof.
  apply (@markup_empty_without_marker str render_as_is
           (lit "<p>no chart</p>") 425%Z 970%Z false).
  reflexivity.
Defined.

Lemma script_concatenates_bodies_witness :
  exists markup,
    get_html_and_script_from_figure render_as_is
      (lit "<div>" ++ script_open ++ lit "a=1" ++ script_close
         ++ lit " " ++ script_open ++ lit "b=2" ++ script_close
         ++ lit "</div>")
      425 970 false =
    Returns (mk_fragments markup (lit "a=1;" ++ [nl] ++ lit "b=2;" ++ [nl])).
Proof.
  apply (proj1 (proj2 (@script_concatenates_bodies str render_as_is
                  (lit "<div>" ++ script_open ++ lit "a=1" ++ script_close
                     ++ lit " " ++ script_open ++ lit "b=2" ++ script_close
                     ++ lit "</div>")
                  425%Z 970%Z false)) [lit "a=1"; lit "b=2"]).
  unfold render_as_is.
  apply blocks_next; [reflexivity|reflexivity|].
  apply blocks_next; [reflexivity|reflexivity|].
  apply blocks_end. reflexivity.
Defined.

Lemma unterminated_block_ignored_witness :
  exists markup,
    get_html_and_script_from_figure render_as_is
      ((lit "<div>" ++ script_open ++ lit "a=1" ++ script_close ++ lit " ")
         ++ script_open ++ lit "b=2</div>")
      425 970 false =
    Returns (mk_fragments markup (lit "a=1;" ++ [nl])).
Proof.
  apply (@unterminated_block_ignored str render_as_is
           ((lit "<div>" ++ script_open ++ lit "a=1" ++ script_close
               ++ lit " ") ++ script_open ++ lit "b=2</div>")
           425%Z 970%Z false
           (lit "<div>" ++ script_open ++ lit "a=1" ++ script_close ++ lit " ")
           (lit "b=2</div>") [lit "a=1"]).
  - reflexivity.
  - reflexivity.
  - apply blocks_next; [reflexivity|reflexivity|].
    apply blocks_end. reflexivity.
Defined.

(** ** Dictionaries *)

Lemma dict_get_None (V : Type) (d : dict V) (key : str) :
  dict_get d key = None <-> ~ In key (map fst d).
Proof.
  induction d as [|[k v] d IH]; simpl.
  - tauto.
  - destruct (str_eqb key k) eqn:E.
    + apply str_eqb_eq in E. subst k. split; [discriminate|tauto].
    + apply str_eqb_neq in E. rewrite IH. split.
      * intros Hn [H|H]; [congruence|tauto].
      * tauto.
Qed.

Lemma dict_get_In (V : Type) (d : dict V) (key : str) :
  In key (map fst d) -> exists v, dict_get d key = Some v.
Proof.
  intros H. destruct (dict_get d key) as [v|] eqn:E; [now exists v|].
  apply dict_get_None in E. contradiction.
Qed.

(** ** Claims about [get_graph_title] *)

Section TitleClaims.

Variable ColumnHeader : Type.
Variable py_str : ColumnHeader -> str.

(** The title in terms of its parts. *)
Lemma get_graph_title_label (xs ys : list ColumnHeader) (filtered : bool)
    (graph_type label : str) :
  dict_get GRAPH_TITLE_LABELS graph_type = Some label ->
  get_graph_title py_str xs ys filtered graph_type =
  Returns (py_join (lit ", ") (map py_str (xs ++ ys)) ++ lit " "
             ++ (if filtered then lit "(first 1000 rows)" ++ lit " " else [])
             ++ label).
Proof.
  intros H. unfold get_graph_title. rewrite H.
  destruct filtered; cbn [py_join]; rewrite <- ?app_assoc; reflexivity.
Qed.

(** C5. The title is the column headers, x axis first, joined with a comma
    and a space, then the marker [(first 1000 rows)] exactly when
    [filtered] holds, then the label of the chart type, the parts being
    separated by single spaces. *)
Theorem graph_title_parts :
  forall (xs ys : list ColumnHeader) (filtered : bool)
         (graph_type label : str),
    dict_get GRAPH_TITLE_LABELS graph_type = Some label ->
    get_graph_title py_str xs ys filtered graph_type =
    Returns (py_join (lit ", ") (map py_str xs ++ map py_str ys) ++ lit " "
               ++ (if filtered then lit "(first 1000 rows)" ++ lit " " else [])
               ++ label).
Proof.
  intros xs ys filtered graph_type label H.
  rewrite <- map_app. now apply get_graph_title_label.
Qed.

(** C7. A chart type outside the label table makes the call raise
    [KeyError]; a chart type of the table makes it return a title. *)
Theorem graph_title_unknown_type_raises :
  forall (xs ys : list ColumnHeader) (filtered : bool) (graph_type : str),
    (~ In graph_type (map fst GRAPH_TITLE_LABELS) ->
     get_graph_title py_str xs ys filtered graph_type =
     Raises (KeyError graph_type))
    /\
    (In graph_type (map fst GRAPH_TITLE_LABELS) ->
     exists title,
       get_graph_title py_str xs ys filtered graph_type = Returns title).
Proof.
  intros xs ys filtered graph_type. split.
  - intros H. apply dict_get_None in H.
    unfold get_graph_title. now rewrite H.
  - intros H. apply dict_get_In in H as [label H].
    rewrite (get_graph_title_label xs ys filtered _ H). eexists. reflexivity.
Qed.

(** C9. With no header at all the joined column list is the empty string,
    and it still takes part in the join: the title starts with the space
    that separates it from the next part. *)
Theorem graph_title_empty_headers :
  forall (filtered : bool) (graph_type label : str),
    dict_get GRAPH_TITLE_LABELS graph_type = Some label ->
    py_join (lit ", ") (map py_str ([] ++ [])) = []
    /\ get_graph_title py_str [] [] filtered graph_type =
       Returns (lit " "
                  ++ (if filtered then lit "(first 1000 rows)" ++ lit " "
                      else [])
                  ++ label).
Proof.
  intros filtered graph_type label H. split; [reflexivity|].
  now rewrite (get_graph_title_label [] [] filtered _ H).
Qed.

End TitleClaims.

Lemma graph_title_parts_witness :
  get_graph_title str_of_str [lit "Age"] [lit "Income"] false (lit "bar") =
    Returns (lit "Age, Income bar chart")
  /\ get_graph_title str_of_str [lit "Age"] [lit "Income"] true (lit "bar") =
    Returns (lit "Age, Income (first 1000 rows) bar chart").
Proof.
  split.
  - apply (@graph_title_parts str str_of_str [lit "Age"] [lit "Income"] false
             (lit "bar") (lit "bar chart")).
    reflexivity.
  - apply (@graph_title_parts str str_of_str [lit "Age"] [lit "Income"] true
             (lit "bar") (lit "bar chart")).
    reflexivity.
Defined.

Lemma graph_title_unknown_type_raises_witness :
  get_graph_title str_of_str [lit "Age"] [lit "Income"] false (lit "pie") =
    Raises (KeyError (lit "pie"))
  /\ exists title,
       get_graph_title str_of_str [lit "Age"] [lit "Income"] false
         (lit "violin") = Returns title.
Proof.
  split.
  - apply (proj1 (@graph_title_unknown_type_raises str str_of_str
                    [lit "Age"] [lit "Income"] false (lit "pie"))).
    cbv. intuition discriminate.
  - apply (proj2 (@graph_title_unknown_type_raises str str_of_str
                    [lit "Age"] [lit "Income"] false (lit "violin"))).
    cbv. tauto.
Defined.

Lemma graph_title_empty_headers_witness :
  py_join (lit ", ") (map str_of_str ([] ++ [])) = []
  /\ get_graph_title str_of_str [] [] true (lit "scatter") =
     Returns (lit " (first 1000 rows) scatter plot").
Proof.
  apply (@graph_title_empty_headers str str_of_str true (lit "scatter")
           (lit "scatter plot")).
  reflexivity.
Defined.

(** ** Claims about [get_new_graph_tab_name] *)

Lemma lit_inj (s t : string) : lit s = lit t -> s = t.
Proof.
  unfold lit. intros H.
  rewrite <- (string_of_list_ascii_of_string s),
          <- (string_of_list_ascii_of_string t).
  now rewrite H.
Qed.

Lemma str_of_nat_inj (n m : nat) : str_of_nat n = str_of_nat m -> n = m.
Proof.
  unfold str_of_nat. intros H. apply lit_inj in H.
  apply Unsigned.to_uint_inj.
  assert (Hs : Some (Nat.to_uint n) = Some (Nat.to_uint m)).
  { rewrite <- !NilEmpty.usu. now rewrite H. }
  now injection Hs.
Qed.

(** Different numbers give different tab names. *)
Lemma graph_name_inj (n m : nat) : graph_name n = graph_name m -> n = m.
Proof.
  unfold graph_name. intros H. apply app_inv_head in H.
  now apply str_of_nat_inj.
Qed.

Section TabNameClaims.

Variable atom : Type.

Implicit Types names : list (pyval atom).

Lemma str_eq_val_true (name : str) (v : pyval atom) :
  str_eq_val name v = true <-> v = PyStr name.
Proof.
  destruct v as [a|s|items]; simpl; try (split; [discriminate|congruence]).
  rewrite str_eqb_eq. split; congruence.
Qed.

Lemma py_in_true (name : str) names :
  py_in name names = true <-> In (PyStr name) names.
Proof.
  unfold py_in. rewrite existsb_exists. split.
  - intros (v & Hin & Hv). apply str_eq_val_true in Hv. now subst v.
  - intros H. exists (PyStr name). split; trivial.
    now apply str_eq_val_true.
Qed.

Lemma py_in_false (name : str) names :
  py_in name names = false <-> ~ In (PyStr name) names.
Proof.
  rewrite <- py_in_true. destruct (py_in name names); split; congruence.
Qed.

(** The names [graph0 .. graph<k-1>] are pairwise different; when all of
    them are taken, there are at least [k] names. *)
Lemma taken_names_bound (k : nat) names :
  (forall n, n < k -> In (PyStr (graph_name n)) names) ->
  k <= length names.
Proof.
  intros Hall.
  set (probes := map (fun n => @PyStr atom (graph_name n)) (seq 0 k)).
  assert (Hnd : NoDup probes).
  { apply Injective_map_NoDup; [|apply seq_NoDup].
    intros n m H.
    apply (f_equal (fun v => match v with PyStr s => s | _ => [] end)) in H.
    now apply graph_name_inj. }
  assert (Hincl : incl probes names).
  { intros v Hv. apply in_map_iff in Hv as (n & <- & Hn).
    apply in_seq in Hn. apply Hall. lia. }
  pose proof (NoDup_incl_length Hnd Hincl) as Hlen.
  unfold probes in Hlen. now rewrite length_map, length_seq in Hlen.
Qed.

(** Below any bound, either every name is taken or there is a first free
    one. *)
Lemma first_free_below (k : nat) names :
  (forall n, n < k -> In (PyStr (graph_name n)) names)
  \/ (exists N, N < k
        /\ ~ In (PyStr (graph_name N)) names
        /\ forall m, m < N -> In (PyStr (graph_name m)) names).
Proof.
  induction k as [|k [IH|(N & HN & Hfree & Hmin)]].
  - left. intros n Hn. lia.
  - destruct (py_in (graph_name k) names) eqn:E.
    + left. intros n Hn. apply py_in_true in E.
      destruct (Nat.eq_dec n k) as [->|Hne]; [assumption|].
      apply IH. lia.
    + right. exists k. apply py_in_false in E. repeat split; auto.
  - right. exists N. repeat split; auto.
Qed.

Lemma first_free_exists names :
  exists N, N <= length names
    /\ ~ In (PyStr (graph_name N)) names
    /\ forall m, m < N -> In (PyStr (graph_name m)) names.
Proof.
  destruct (first_free_below (S (length names)) names)
    as [Hall|(N & HN & Hfree & Hmin)].
  - apply taken_names_bound in Hall. lia.
  - exists N. repeat split; auto. lia.
Qed.

(** The probing loop walks up to the first free name. *)
Lemma probe_first_free (fuel : nat) names (n N : nat) :
  n <= N ->
  (forall m, n <= m < N -> In (PyStr (graph_name m)) names) ->
  ~ In (PyStr (graph_name N)) names ->
  N - n < fuel ->
  probe fuel names n (graph_name n) = Returns (graph_name N).
Proof.
  revert n. induction fuel as [|fuel IH]; intros n Hle Htaken Hfree Hfuel;
    [lia|].
  cbn [probe]. destruct (Nat.eq_dec n N) as [->|Hne].
  - apply py_in_false in Hfree. now rewrite Hfree.
  - assert (Hin : py_in (graph_name n) names = true).
    { apply py_in_true, Htaken. lia. }
    rewrite Hin. apply IH; try lia; trivial.
    intros m Hm. apply Htaken. lia.
Qed.

Lemma collect_names_values (graph_data_dict : dict (dict (pyval atom)))
    names acc :
  Forall2 (fun entry name =>
             dict_get (snd entry) (lit "graphTabName") = Some name)
    graph_data_dict names ->
  collect_names (map snd graph_data_dict) acc = Returns (acc ++ names).
Proof.
  intros H. revert acc.
  induction H as [|entry name d names Hget Hrest IH]; intros acc;
    cbn [map collect_names].
  - now rewrite app_nil_r.
  - rewrite Hget, IH, <- app_assoc. reflexivity.
Qed.


End TabNameClaims.


Example new_graph_tab_name_example :
  get_new_graph_tab_name
    [ (lit "id1", [(lit "graphTabName", @PyStr unit (lit "graph1"))]);
      (lit "id0", [(lit "graphTabName", PyStr (lit "graph0"))]);
      (lit "id3", [(lit "graphTabName", PyStr (lit "graph3"))]) ]
  = Returns (lit "graph2").
Proof. reflexivity. Qed.

(** ** Claims about [param_dict_to_code] *)

Lemma in_py_join (sep : str) (parts : list str) (p : str) (c : ascii) :
  In p parts -> In c p -> In c (py_join sep parts).
Proof.
  intros Hp Hc. induction parts as [|q parts IH]; [easy|].
  cbn [py_join]. destruct parts as [|q' parts].
  - destruct Hp as [->|[]]. assumption.
  - destruct Hp as [->|Hp].
    + apply in_or_app. now left.
    + apply in_or_app. right. apply in_or_app. right. now apply IH.
Qed.

Lemma in_py_join_inv (sep : str) (parts : list str) (c : ascii) :
  In c (py_join sep parts) ->
  In c sep \/ exists p, In p parts /\ In c p.
Proof.
  induction parts as [|q parts IH]; [easy|].
  cbn [py_join]. destruct parts as [|q' parts].
  - intros H. right. exists q. split; [now left|assumption].
  - intros H. apply in_app_or in H as [H|H].
    + right. exists q. split; [now left|assumption].
    + apply in_app_or in H as [H|H]; [now left|].
      destruct (IH H) as [Hs|(p & Hp & Hc)]; [now left|].
      right. exists p. split; [now right|assumption].
Qed.

Lemma strip_spaces_app (s t : str) :
  strip_spaces (s ++ t) = strip_spaces s ++ strip_spaces t.
Proof. apply filter_app. Qed.

Lemma strip_spaces_join (sep : str) (parts : list str) :
  strip_spaces (py_join sep parts) =
  py_join (strip_spaces sep) (map strip_spaces parts).
Proof.
  induction parts as [|p parts IH]; [reflexivity|].
  destruct parts as [|q parts]; [reflexivity|].
  change (py_join sep (p :: q :: parts))
    with (p ++ sep ++ py_join sep (q :: parts)).
  rewrite !strip_spaces_app, IH. reflexivity.
Qed.

Section SerializerClaims.

Variable atom : Type.
Variable column_header_to_transpiled_code : pyval atom -> str.

#[local] Abbreviation conv := column_header_to_transpiled_code.

(** The loop over the entries, once the chunks are known. *)
Lemma fold_entries (TAB_CONSTANT NEWLINE_CONSTANT : str) (level : nat)
    (items : dict (pyval atom)) (state : str * nat) :
  fold_left
    (fun state entry =>
       let '(key, value) := entry in
       let code_chunk :=
         match value with
         | PyDict _ =>
             key ++ lit " = " ++ param_dict_to_code_rec conv value (level + 1)
                                   false
         | _ => key ++ lit "=" ++ conv value
         end in
       add_chunk TAB_CONSTANT NEWLINE_CONSTANT level state code_chunk)
    items state =
  fold_left (add_chunk TAB_CONSTANT NEWLINE_CONSTANT level)
    (map (entry_code conv level) items) state.
Proof.
  revert state. induction items as [|[key value] items IH]; intros state.
  - reflexivity.
  - cbn [fold_left map]. rewrite IH. destruct value; reflexivity.
Qed.

(** After the first chunk, every chunk comes with a separator in front. *)
Lemma fold_add_chunk_later (T N : str) (level : nat) (chunks : list str)
    (code : str) (n : nat) :
  fold_left (add_chunk T N level) chunks (code, S n) =
  (code ++ concat (map (fun chunk =>
                          (lit ", " ++ N) ++ py_repeat T (level + 1) ++ chunk)
                     chunks),
   S n + length chunks).
Proof.
  revert code n. induction chunks as [|chunk chunks IH]; intros code n.
  - cbn. now rewrite app_nil_r, Nat.add_0_r.
  - cbn [fold_left add_chunk Nat.eqb negb map concat length].
    rewrite IH. f_equal; [|lia].
    now rewrite <- !app_assoc.
Qed.

Lemma py_join_cons (sep p : str) (parts : list str) :
  py_join sep (p :: parts) =
  p ++ concat (map (fun q => sep ++ q) parts).
Proof.
  revert p. induction parts as [|q parts IH]; intros p.
  - cbn. now rewrite app_nil_r.
  - change (py_join sep (p :: q :: parts))
      with (p ++ sep ++ py_join sep (q :: parts)).
    rewrite IH. cbn [map concat]. now rewrite <- !app_assoc.
Qed.

Lemma fold_add_chunk_join (T N : str) (level : nat) (chunks : list str)
    (code : str) :
  fst (fold_left (add_chunk T N level) chunks (code, 0)) =
  code ++ py_join (lit ", " ++ N)
            (map (fun chunk => py_repeat T (level + 1) ++ chunk) chunks).
Proof.
  destruct chunks as [|chunk chunks].
  - cbn. now rewrite app_nil_r.
  - cbn [fold_left add_chunk Nat.eqb negb map].
    rewrite fold_add_chunk_later, py_join_cons. cbn [fst].
    rewrite map_map, <- !app_assoc. reflexivity.
Qed.

(** The output is an opening, the entries joined by the separator, and a
    closing; each entry is its indentation followed by its code chunk. *)
Lemma param_dict_to_code_layout (param_dict : dict (pyval atom))
    (level : nat) (as_single_line : bool) :
  let TAB_CONSTANT := if as_single_line then [] else TAB in
  let NEWLINE_CONSTANT := if as_single_line then [] else [nl] in
  param_dict_to_code conv param_dict level as_single_line =
  (if level =? 0 then NEWLINE_CONSTANT else lit "dict(" ++ NEWLINE_CONSTANT)
    ++ py_join (lit ", " ++ NEWLINE_CONSTANT)
         (map (fun entry =>
                 py_repeat TAB_CONSTANT (level + 1)
                   ++ entry_code conv level entry)
            param_dict)
    ++ (if level =? 0 then NEWLINE_CONSTANT
        else NEWLINE_CONSTANT ++ py_repeat TAB_CONSTANT level ++ lit ")").
Proof.
  intros TAB_CONSTANT NEWLINE_CONSTANT.
  unfold param_dict_to_code. cbn [param_dict_to_code_rec].
  fold TAB_CONSTANT NEWLINE_CONSTANT.
  rewrite fold_entries.
  pose proof (fold_add_chunk_join TAB_CONSTANT NEWLINE_CONSTANT level
                (map (entry_code conv level) param_dict)
                (if level =? 0 then NEWLINE_CONSTANT
                 else lit "dict(" ++ NEWLINE_CONSTANT)) as Hfold.
  destruct (fold_left _ _ _) as [code value_num]. cbn [fst] in Hfold.
  subst code. rewrite map_map.
  destruct (level =? 0); rewrite <- !app_assoc; reflexivity.
Qed.

(** C8, as the code has it. In single-line mode and otherwise alike, the
    output is an opening, the entries joined by the separator, and a
    closing, where the entry of a key whose value is not a dictionary reads
    [key=value] and the entry of a key whose value is a dictionary reads
    [key = value], with spaces around the equals sign, the value being the
    code of the nested dictionary one level down. The spacing follows the
    kind of the value, not the mode. *)
Theorem param_dict_entries :
  forall (param_dict : dict (pyval atom)) (level : nat)
         (as_single_line : bool),
    let TAB_CONSTANT := if as_single_line then [] else TAB in
    let NEWLINE_CONSTANT := if as_single_line then [] else [nl] in
    exists chunks : list str,
      Forall2 (entry_chunk conv level) param_dict chunks
      /\ param_dict_to_code conv param_dict level as_single_line =
         (if level =? 0 then NEWLINE_CONSTANT
          else lit "dict(" ++ NEWLINE_CONSTANT)
           ++ py_join (lit ", " ++ NEWLINE_CONSTANT)
                (map (fun chunk =>
                        py_repeat TAB_CONSTANT (level + 1) ++ chunk)
                   chunks)
           ++ (if level =? 0 then NEWLINE_CONSTANT
               else NEWLINE_CONSTANT ++ py_repeat TAB_CONSTANT level
                      ++ lit ")").
Proof.
  intros param_dict level as_single_line TAB_CONSTANT NEWLINE_CONSTANT.
  exists (map (entry_code conv level) param_dict). split.
  - induction param_dict as [|[key value] param_dict IH]; cbn [map];
      constructor; trivial.
    destruct value as [a|s|nested]; cbn [entry_code]; constructor.
  - rewrite param_dict_to_code_layout, map_map. reflexivity.
Qed.

(** C3, on the code. A parameter dictionary with a nested dictionary among
    its values is rendered with newline characters even when
    [as_single_line] is set: the nested dictionary is rendered by a call
    that does not pass [as_single_line] on. *)
Theorem single_line_nested_has_newline :
  forall (param_dict : dict (pyval atom)) (level : nat) (key : str)
         (nested : dict (pyval atom)),
    In (key, PyDict nested) param_dict ->
    In nl (param_dict_to_code conv param_dict level true).
Proof.
  intros param_dict level key nested Hin.
  rewrite param_dict_to_code_layout. cbv zeta.
  apply in_or_app. right. apply in_or_app. left.
  apply in_py_join
    with (p := py_repeat [] (level + 1)
                 ++ entry_code conv level (key, PyDict nested)).
  - apply in_map_iff. exists (key, PyDict nested). split; trivial.
  - apply in_or_app. right. cbn [entry_code].
    apply in_or_app. right. apply in_or_app. right.
    rewrite param_dict_to_code_layout. cbv zeta.
    rewrite Nat.add_1_r. cbn [Nat.eqb].
    apply in_or_app. left. apply in_or_app. right. now left.
Qed.

(** X11. What does hold of the single-line mode: without nested
    dictionaries, and with keys and literals free of newlines, the
    single-line output has no newline. *)
Lemma single_line_flat_no_newline (param_dict : dict (pyval atom))
    (level : nat) :
  (forall key value, In (key, value) param_dict ->
     ~ In nl key /\ ~ In nl (conv value)
     /\ forall items, value <> PyDict items) ->
  ~ In nl (param_dict_to_code conv param_dict level true).
Proof.
  intros Hflat. rewrite param_dict_to_code_layout. cbv zeta.
  assert (Hrep : forall n, py_repeat (@nil ascii) n = []).
  { induction n; simpl; trivial. }
  rewrite !Hrep. intros Hin.
  apply in_app_or in Hin as [Hin|Hin].
  { destruct (level =? 0); [easy|].
    revert Hin. cbv. intuition discriminate. }
  apply in_app_or in Hin as [Hin|Hin].
  - apply in_py_join_inv in Hin as [Hin|(p & Hp & Hin)].
    + revert Hin. cbv. intuition discriminate.
    + apply in_map_iff in Hp as ([key value] & <- & Hentry).
      destruct (Hflat key value Hentry) as (Hkey & Hval & Hnd).
      cbn [app] in Hin.
      destruct value as [a|t|items]; [| |now destruct (Hnd items)];
        cbn [entry_code] in Hin;
        apply in_app_or in Hin as [Hin|Hin]; try contradiction;
        apply in_app_or in Hin as [Hin|Hin]; try contradiction;
        revert Hin; cbv; intuition discriminate.
  - destruct (level =? 0); [easy|].
    revert Hin. cbv. intuition discriminate.
Qed.

Lemma strip_spaces_repeat (T : str) (n : nat) :
  strip_spaces T = [] -> strip_spaces (py_repeat T n) = [].
Proof.
  intros HT. induction n as [|n IH]; [reflexivity|].
  cbn [py_repeat]. now rewrite strip_spaces_app, HT, IH.
Qed.

Lemma strip_spaces_layout (T N : str) (param_dict : dict (pyval atom))
    (level : nat) :
  strip_spaces T = [] ->
  strip_spaces N = [] ->
  strip_spaces
    ((if level =? 0 then N else lit "dict(" ++ N)
       ++ py_join (lit ", " ++ N)
            (map (fun entry =>
                    py_repeat T (level + 1) ++ entry_code conv level entry)
               param_dict)
       ++ (if level =? 0 then N else N ++ py_repeat T level ++ lit ")")) =
  (if level =? 0 then [] else lit "dict(")
    ++ py_join (lit ",")
         (map (fun entry => strip_spaces (entry_code conv level entry))
            param_dict)
    ++ (if level =? 0 then [] else lit ")").
Proof.
  intros HT HN.
  assert (Hmap : map (fun entry =>
                        strip_spaces (py_repeat T (level + 1)
                                        ++ entry_code conv level entry))
                   param_dict =
                 map (fun entry => strip_spaces (entry_code conv level entry))
                   param_dict).
  { apply map_ext. intros entry.
    now rewrite strip_spaces_app, strip_spaces_repeat. }
  destruct (level =? 0);
    rewrite !strip_spaces_app, strip_spaces_join, map_map, Hmap,
      ?strip_spaces_app, ?HN, ?strip_spaces_repeat by assumption;
    reflexivity.
Qed.

(** X12. The outputs of the two modes differ in spaces and newlines only,
    for every parameter dictionary, nested or not. *)
Lemma modes_differ_in_spaces_only (param_dict : dict (pyval atom))
    (level : nat) :
  strip_spaces (param_dict_to_code conv param_dict level true) =
  strip_spaces (param_dict_to_code conv param_dict level false).
Proof.
  rewrite !param_dict_to_code_layout. cbv zeta.
  rewrite !strip_spaces_layout; reflexivity.
Qed.

End SerializerClaims.

Lemma single_line_nested_has_newline_witness :
  In nl (param_dict_to_code literal_one
           [(lit "x", PyAtom tt); (lit "font", PyDict [(lit "size", PyAtom tt)])]
           0 true).
Proof.
  apply (@single_line_nested_has_newline unit literal_one
           [(lit "x", PyAtom tt); (lit "font", PyDict [(lit "size", PyAtom tt)])]
           0 (lit "font") [(lit "size", PyAtom tt)]).
  right. left. reflexivity.
Defined.

Example single_line_nested_example :
  param_dict_to_code literal_one
    [(lit "x", PyAtom tt); (lit "font", PyDict [(lit "size", PyAtom tt)])]
    0 true =
  lit "x=1, font = dict(" ++ [nl] ++ TAB ++ TAB ++ lit "size=1" ++ [nl]
    ++ TAB ++ lit ")".
Proof. reflexivity. Qed.

(** In multi-line mode a scalar entry has no spaces around [=], and in
    single-line mode a dictionary entry has them: neither output is the one
    the specification words. *)
Lemma entry_spacing_counterexample :
  param_dict_to_code literal_one [(lit "x", PyAtom tt)] 0 false =
    [nl] ++ TAB ++ lit "x=1" ++ [nl]
  /\ param_dict_to_code literal_one [(lit "x", PyAtom tt)] 0 false <>
    [nl] ++ TAB ++ entry_as_specified false (lit "x") (lit "1") ++ [nl]
  /\ param_dict_to_code literal_one [(lit "font", PyDict [])] 0 true =
    lit "font = dict(" ++ [nl; nl] ++ TAB ++ lit ")"
  /\ param_dict_to_code literal_one [(lit "font", PyDict [])] 0 true <>
    entry_as_specified true (lit "font")
      (param_dict_to_code literal_one [] 1 false).
Proof.
  repeat split; try reflexivity; discriminate.
Qed.

(** * Further properties *)

(** ** More on [get_new_graph_tab_name] *)

Section TabNameMore.

Variable atom : Type.

Implicit Types names : list (pyval atom).

(** The tab names recorded in a dictionary of graph data. *)
#[local] Abbreviation recorded graph_data_dict names :=
  (Forall2 (fun (entry : str * dict (pyval atom)) name =>
              dict_get (snd entry) (lit "graphTabName") = Some name)
     graph_data_dict names).

(** The call returns the first free name, whichever way it is known. *)
Lemma new_graph_tab_name_at (graph_data_dict : dict (dict (pyval atom)))
    names (N : nat) :
  recorded graph_data_dict names ->
  ~ In (PyStr (graph_name N)) names ->
  (forall m, m < N -> In (PyStr (graph_name m)) names) ->
  get_new_graph_tab_name graph_data_dict = Returns (graph_name N).
Proof.
  intros Hrec Hfree Hmin. unfold get_new_graph_tab_name.
  rewrite (collect_names_values [] Hrec). cbn [app].
  pose proof (@taken_names_bound atom N names Hmin) as Hbound.
  apply probe_first_free; try lia; trivial.
  intros m Hm. apply Hmin. lia.
Qed.

Lemma collect_names_missing (values : list (dict (pyval atom))) names :
  Exists (fun graph_data =>
            dict_get graph_data (lit "graphTabName") = None) values ->
  collect_names values names = Raises (KeyError (lit "graphTabName")).
Proof.
  intros H. revert names.
  induction H as [graph_data values Hnone|graph_data values Hex IH];
    intros names; cbn [collect_names].
  - now rewrite Hnone.
  - destruct (dict_get graph_data (lit "graphTabName")); [apply IH|trivial].
Qed.

(** X1. When some graph data has no ["graphTabName"], the call raises
    [KeyError], whatever the other graph data hold. *)
Theorem new_graph_tab_name_missing_key :
  forall (graph_data_dict : dict (dict (pyval atom))),
    Exists (fun entry =>
              dict_get (snd entry) (lit "graphTabName") = None)
      graph_data_dict ->
    get_new_graph_tab_name graph_data_dict =
    Raises (KeyError (lit "graphTabName")).
Proof.
  intros graph_data_dict H. unfold get_new_graph_tab_name.
  rewrite collect_names_missing; trivial.
  apply Exists_exists in H as (entry & Hin & Hnone).
  apply Exists_exists. exists (snd entry). split; trivial.
  now apply in_map.
Qed.

(** X2. The number of the name returned is at most the number of graphs:
    with [n] graphs the name is one of [graph0 .. graph<n>], and with no
    graph it is [graph0]. *)
Theorem new_graph_tab_name_bound :
  forall (graph_data_dict : dict (dict (pyval atom))) names,
    recorded graph_data_dict names ->
    exists N,
      get_new_graph_tab_name graph_data_dict = Returns (graph_name N)
      /\ N <= length graph_data_dict.
Proof.
  intros graph_data_dict names Hrec.
  destruct (first_free_exists names) as (N & HN & Hfree & Hmin).
  exists N. split.
  - now apply new_graph_tab_name_at with (names := names).
  - now rewrite (Forall2_length Hrec).
Qed.

(** X3. Once the name returned is recorded for a new graph, the next call
    returns a name with a greater number: successive graphs get different
    names. *)
Theorem new_graph_tab_name_after_insert :
  forall (graph_data_dict : dict (dict (pyval atom))) names,
    recorded graph_data_dict names ->
    exists N N',
      get_new_graph_tab_name graph_data_dict = Returns (graph_name N)
      /\ N < N'
      /\ forall (graph_id : str) (graph_data : dict (pyval atom)),
           dict_get graph_data (lit "graphTabName") =
             Some (PyStr (graph_name N)) ->
           get_new_graph_tab_name
             (graph_data_dict ++ [(graph_id, graph_data)]) =
           Returns (graph_name N').
Proof.
  intros graph_data_dict names Hrec.
  destruct (first_free_exists names) as (N & HN & Hfree & Hmin).
  destruct (first_free_exists (names ++ [PyStr (graph_name N)]))
    as (N' & HN' & Hfree' & Hmin').
  exists N, N'. split; [|split].
  - now apply new_graph_tab_name_at with (names := names).
  - destruct (Nat.lt_trichotomy N' N) as [Hlt|[Heq|Hgt]]; trivial.
    + exfalso. apply Hfree'. apply in_or_app. left. now apply Hmin.
    + exfalso. apply Hfree'. subst N'. apply in_or_app. right. now left.
  - intros graph_id graph_data Hget.
    apply new_graph_tab_name_at
      with (names := names ++ [PyStr (graph_name N)]); trivial.
    apply Forall2_app; trivial. constructor; [exact Hget|constructor].
Qed.

(** X4. When the tab names are strings, the name returned depends only on
    which of the names [graph0], [graph1], ... are among them: the order of
    the graphs, their identifiers, repeated names and names of any other
    form do not matter. *)
Theorem new_graph_tab_name_set :
  forall (d1 d2 : dict (dict (pyval atom))) (names1 names2 : list str),
    recorded d1 (map (@PyStr atom) names1) ->
    recorded d2 (map (@PyStr atom) names2) ->
    (forall n, In (graph_name n) names1 <-> In (graph_name n) names2) ->
    get_new_graph_tab_name d1 = get_new_graph_tab_name d2.
Proof.
  intros d1 d2 names1 names2 H1 H2 Hsame.
  assert (Hstr : forall (name : str) (l : list str),
             In (@PyStr atom name) (map (@PyStr atom) l) <-> In name l).
  { intros name l. rewrite in_map_iff. split.
    - intros (x & Hx & Hin). injection Hx as ->. exact Hin.
    - intros Hin. now exists name. }
  destruct (first_free_exists (map (@PyStr atom) names1))
    as (N & HN & Hfree & Hmin).
  rewrite (@new_graph_tab_name_at d1 _ N H1 Hfree Hmin).
  symmetry.
  apply new_graph_tab_name_at with (names := map (@PyStr atom) names2);
    trivial.
  - rewrite Hstr, <- Hsame, <- Hstr. exact Hfree.
  - intros m Hm. apply Hstr, Hsame, Hstr. now apply Hmin.
Qed.

End TabNameMore.

Lemma new_graph_tab_name_missing_key_witness :
  get_new_graph_tab_name
    [ (lit "id0", [(lit "graphTabName", @PyStr unit (lit "graph0"))]);
      (lit "id1", [(lit "graphType", PyStr (lit "bar"))]) ]
  = Raises (KeyError (lit "graphTabName")).
Proof.
  apply (@new_graph_tab_name_missing_key unit
           [ (lit "id0", [(lit "graphTabName", PyStr (lit "graph0"))]);
             (lit "id1", [(lit "graphType", PyStr (lit "bar"))]) ]).
  right. left. reflexivity.
Defined.

Lemma new_graph_tab_name_bound_witness :
  exists N,
    @get_new_graph_tab_name unit [] = Returns (graph_name N)
    /\ N <= 0.
Proof.
  apply (@new_graph_tab_name_bound unit [] []). constructor.
Defined.

Lemma new_graph_tab_name_after_insert_witness :
  exists N N',
    get_new_graph_tab_name
      [ (lit "id0", [(lit "graphTabName", @PyStr unit (lit "graph0"))]);
        (lit "id2", [(lit "graphTabName", PyStr (lit "graph2"))]) ]
    = Returns (graph_name N)
    /\ N < N'
    /\ forall (graph_id : str) (graph_data : dict (pyval unit)),
         dict_get graph_data (lit "graphTabName") =
           Some (PyStr (graph_name N)) ->
         get_new_graph_tab_name
           ([ (lit "id0", [(lit "graphTabName", PyStr (lit "graph0"))]);
              (lit "id2", [(lit "graphTabName", PyStr (lit "graph2"))]) ]
              ++ [(graph_id, graph_data)]) =
         Returns (graph_name N').
Proof.
  apply (@new_graph_tab_name_after_insert unit
           [ (lit "id0", [(lit "graphTabName", PyStr (lit "graph0"))]);
             (lit "id2", [(lit "graphTabName", PyStr (lit "graph2"))]) ]
           [PyStr (lit "graph0"); PyStr (lit "graph2")]).
  repeat constructor.
Defined.

Lemma new_graph_tab_name_set_witness :
  get_new_graph_tab_name
    [ (lit "a", [(lit "graphTabName", @PyStr unit (lit "graph1"))]);
      (lit "b", [(lit "graphTabName", PyStr (lit "graph0"))]) ]
  = get_new_graph_tab_name
      [ (lit "c", [(lit "graphTabName", @PyStr unit (lit "graph0"))]);
        (lit "d", [(lit "graphTabName", PyStr (lit "sales by region"))]);
        (lit "e", [(lit "graphTabName", PyStr (lit "graph1"))]);
        (lit "f", [(lit "graphTabName", PyStr (lit "graph0"))]) ].
Proof.
  apply (@new_graph_tab_name_set unit _ _
           [lit "graph1"; lit "graph0"]
           [lit "graph0"; lit "sales by region"; lit "graph1"; lit "graph0"]).
  - repeat constructor.
  - repeat constructor.
  - intros n. split.
    + intros [H|[H|[]]]; rewrite <- H; cbn [In]; tauto.
    + intros [H|[H|[H|[H|[]]]]]; try (rewrite <- H; cbn [In]; tauto).
      discriminate H.
Defined.

(** ** More on [get_html_and_script_from_figure] *)

Lemma py_slice_from (pre suf : str) (b : Z) :
  py_slice (pre ++ suf) (len pre) b =
  firstn (Z.to_nat (slice_bound b (len (pre ++ suf)) - len pre)) suf.
Proof.
  unfold py_slice. rewrite len_app.
  pose proof (len_nonneg pre) as Hp. pose proof (len_nonneg suf) as Hs.
  assert (Hlo : slice_bound (len pre) (len pre + len suf) = len pre).
  { unfold slice_bound. destruct (Z.ltb_spec (len pre) 0); lia. }
  rewrite Hlo. unfold len at 4. rewrite Nat2Z.id.
  now rewrite skipn_app, skipn_all, Nat.sub_diag.
Qed.

Lemma occurs_firstn (sub s : str) (n : nat) :
  occurs sub s = false -> occurs sub (firstn n s) = false.
Proof.
  intros H. destruct (occurs sub (firstn n s)) eqn:E; trivial.
  apply (occurs_app_l _ _ (skipn n s)) in E.
  rewrite firstn_skipn in E. congruence.
Qed.

Lemma extract_html (doc : str) (f : fragments) :
  extract doc = Returns f ->
  html f =
  py_slice doc (py_find doc div_open 0)
    (py_find doc div_close (py_find doc div_open 0)).
Proof.
  unfold extract. intros H.
  destruct (script_loop (S (length doc)) doc 0 []); try discriminate.
  now injection H as <-.
Qed.

Lemma extract_returns (doc : str) : exists f, extract doc = Returns f.
Proof.
  destruct (script_blocks_total doc) as [bodies Hb].
  destruct (extract_script Hb) as [markup He]. eexists. exact He.
Qed.

(** The markup is cut out of the document between two positions, and has
    no closing [div] tag. *)
Lemma markup_shape (doc : str) :
  exists k n,
    py_slice doc (py_find doc div_open 0)
      (py_find doc div_close (py_find doc div_open 0)) =
    firstn n (skipn k doc)
    /\ occurs div_close (firstn n (skipn k doc)) = false.
Proof.
  destruct (first_occ div_open doc) as [k|] eqn:Ek.
  - pose proof (first_occ_Some _ _ Ek) as (Hle & _ & _).
    assert (H0 : py_find doc div_open 0 = Z.of_nat k)
      by now rewrite py_find_0, Ek.
    rewrite H0. clear Ek H0.
    assert (Hdoc : doc = firstn k doc ++ skipn k doc)
      by now rewrite firstn_skipn.
    assert (Hk : length (firstn k doc) = k)
      by (rewrite length_firstn; lia).
    revert Hdoc Hk. generalize (firstn k doc) (skipn k doc).
    intros pre suf -> <-. clear Hle.
    exists (length pre). rewrite skipn_app, skipn_all, Nat.sub_diag.
    cbn [skipn app]. change (Z.of_nat (length pre)) with (len pre).
    rewrite py_find_at, py_slice_from.
    destruct (first_occ div_close suf) as [m|] eqn:Em.
    + pose proof (first_occ_Some _ _ Em) as (Hm & _ & Hno).
      exists m. split; [|apply Hno; discriminate].
      f_equal. unfold slice_bound. rewrite len_app.
      unfold len.
      destruct (Z.ltb_spec (Z.of_nat (length pre) + Z.of_nat m) 0); lia.
    + eexists. split; [reflexivity|].
      apply occurs_firstn. now apply first_occ_None.
  - exists 0, 0. split; [|reflexivity].
    rewrite py_find_0, Ek.
    assert (Hend : py_find doc div_close (-1) = (-1)%Z).
    { unfold py_find. pose proof (len_nonneg doc) as Hn.
      change (-1 <? 0)%Z with true. cbv iota.
      destruct (Z.ltb_spec (len doc) (Z.max 0 (-1 + len doc))); [lia|].
      assert (Hnone : first_occ div_close
                        (skipn (Z.to_nat (Z.max 0 (-1 + len doc))) doc)
                      = None).
      { apply first_occ_None, occurs_short. rewrite length_skipn.
        change (length div_close) with 6. unfold len. lia. }
      now rewrite Hnone. }
    rewrite Hend. unfold py_slice. rewrite Z.sub_diag. reflexivity.
Qed.

Lemma extract_markup_unclosed (pre tail : str) :
  occurs div_open pre = false ->
  occurs div_close tail = false ->
  exists s,
    extract (pre ++ div_open ++ tail) =
    Returns (mk_fragments (removelast (div_open ++ tail)) s).
Proof.
  intros Hpre Htail.
  destruct (extract_returns (pre ++ div_open ++ tail)) as [[markup s] He].
  exists s. rewrite He. do 2 f_equal.
  apply extract_html in He. cbn [html] in He. rewrite He.
  rewrite py_find_0, div_open_first_occ by assumption.
  change (Z.of_nat (length pre)) with (len pre).
  rewrite py_find_at, div_close_after_open.
  apply first_occ_None in Htail. rewrite Htail. cbn [option_map].
  rewrite py_slice_from, removelast_firstn_len. f_equal.
  unfold slice_bound. change (-1 <? 0)%Z with true. cbv iota.
  rewrite !len_app. unfold len. rewrite length_app.
  change (length div_open) with 8. lia.
Qed.

Lemma script_blocks_script_length (doc : str) (bodies : list str) :
  script_blocks doc bodies ->
  length (concat (map terminated bodies)) + 38 * length bodies <= length doc.
Proof.
  induction 1 as [doc H|pre body rest bodies Hp Hb Hr IH].
  - cbn. lia.
  - cbn [map concat]. unfold terminated at 1.
    rewrite !length_app.
    change (length (body :: bodies)) with (S (length bodies)).
    change (length script_open) with 31.
    change (length script_close) with 9.
    change (length (lit ";")) with 1. change (length [nl]) with 1. lia.
Qed.

Lemma has_block_occurs_open (doc : str) :
  has_block doc = true -> occurs script_open doc = true.
Proof.
  induction doc as [|a doc IH]; [discriminate|].
  cbn [has_block occurs]. intros H.
  apply orb_true_iff in H as [H|H].
  - apply andb_true_iff in H as [H _]. now rewrite H.
  - rewrite (IH H). apply orb_true_r.
Qed.

Section ExtractorMore.

Variable Figure : Type.
Variable write_html : Figure -> bool -> Z -> Z -> str.

(** X5. Whatever the rendered document, the call returns, and the markup
    it returns has no closing [div] tag in it. *)
Theorem markup_has_no_closing_tag :
  forall (fig : Figure) (height width : Z) (include_plotlyjs : bool),
    exists f,
      get_html_and_script_from_figure write_html fig height width
        include_plotlyjs = Returns f
      /\ occurs div_close (html f) = false.
Proof.
  intros fig height width include_plotlyjs.
  unfold get_html_and_script_from_figure.
  destruct (extract_returns (write_html fig include_plotlyjs height width))
    as [f He].
  exists f. split; trivial.
  rewrite (@extract_html _ _ He).
  destruct (markup_shape (write_html fig include_plotlyjs height width))
    as (k & n & -> & Hno).
  exact Hno.
Qed.

(** X6. The markup returned is a contiguous part of the rendered
    document. *)
Theorem markup_is_part_of_document :
  forall (fig : Figure) (height width : Z) (include_plotlyjs : bool),
    exists f before after,
      get_html_and_script_from_figure write_html fig height width
        include_plotlyjs = Returns f
      /\ write_html fig include_plotlyjs height width =
         before ++ html f ++ after.
Proof.
  intros fig height width include_plotlyjs.
  unfold get_html_and_script_from_figure.
  set (doc := write_html fig include_plotlyjs height width).
  destruct (extract_returns doc) as [f He].
  destruct (markup_shape doc) as (k & n & Hcut & _).
  exists f, (firstn k doc), (skipn n (skipn k doc)). split; trivial.
  rewrite (@extract_html _ _ He), Hcut.
  now rewrite !firstn_skipn.
Qed.

(** X7. When the container marker is there and no closing [div] tag
    follows it, the markup is the document from the marker on, without its
    last character: [find] answers [-1] and the slice ends one before the
    end. *)
Theorem markup_without_closing_tag :
  forall (fig : Figure) (height width : Z) (include_plotlyjs : bool)
         (pre tail : str),
    write_html fig include_plotlyjs height width = pre ++ div_open ++ tail ->
    occurs div_open pre = false ->
    occurs div_close tail = false ->
    exists s,
      get_html_and_script_from_figure write_html fig height width
        include_plotlyjs =
      Returns (mk_fragments (removelast (div_open ++ tail)) s).
Proof.
  intros fig height width include_plotlyjs pre tail Hdoc Hpre Htail.
  unfold get_html_and_script_from_figure. rewrite Hdoc.
  now apply extract_markup_unclosed.
Qed.

(** X8. The script is never longer than the rendered document. *)
Theorem script_not_longer_than_document :
  forall (fig : Figure) (height width : Z) (include_plotlyjs : bool),
    exists f,
      get_html_and_script_from_figure write_html fig height width
        include_plotlyjs = Returns f
      /\ length (script f)
         <= length (write_html fig include_plotlyjs height width).
Proof.
  intros fig height width include_plotlyjs.
  unfold get_html_and_script_from_figure.
  set (doc := write_html fig include_plotlyjs height width).
  destruct (script_blocks_total doc) as [bodies Hb].
  destruct (extract_script Hb) as [markup He].
  eexists. split; [exact He|]. cbn [script].
  pose proof (script_blocks_script_length Hb). lia.
Qed.

(** X9. The script of a document that starts with a block is the body of
    the block, with its terminator, followed by the script of what comes
    after the block. *)
Theorem script_of_block_and_rest :
  forall (pre body rest : str),
    occurs script_open pre = false ->
    occurs script_close body = false ->
    exists f g,
      extract (pre ++ script_open ++ body ++ script_close ++ rest) = Returns f
      /\ extract rest = Returns g
      /\ script f = terminated body ++ script g.
Proof.
  intros pre body rest Hpre Hbody.
  destruct (script_blocks_total rest) as [bodies Hb].
  destruct (extract_script Hb) as [m2 He2].
  destruct (extract_script (blocks_next pre body Hpre Hbody Hb)) as [m1 He1].
  eexists. eexists. split; [exact He1|]. split; [exact He2|].
  reflexivity.
Qed.

(** X10. A script block counts only under the exact opening tag: a
    document without it gives the empty script, whatever other script tags
    it has. *)
Theorem script_needs_exact_opening_tag :
  forall (fig : Figure) (height width : Z) (include_plotlyjs : bool),
    occurs script_open (write_html fig include_plotlyjs height width)
      = false ->
    exists markup,
      get_html_and_script_from_figure write_html fig height width
        include_plotlyjs = Returns (mk_fragments markup []).
Proof.
  intros fig height width include_plotlyjs Hno.
  unfold get_html_and_script_from_figure.
  apply (@extract_script _ []). apply blocks_end.
  destruct (has_block _) eqn:E; trivial.
  apply has_block_occurs_open in E. congruence.
Qed.

End ExtractorMore.

Lemma markup_without_closing_tag_witness :
  exists s,
    get_html_and_script_from_figure render_as_is
      (lit "<p>" ++ div_open ++ quoted "g" ++ lit "><b>chart</b>")
      425 970 false =
    Returns
      (mk_fragments (lit "<div id=" ++ quoted "g" ++ lit "><b>chart</b") s).
Proof.
  apply (@markup_without_closing_tag str render_as_is
           (lit "<p>" ++ div_open ++ quoted "g" ++ lit "><b>chart</b>")
           425%Z 970%Z false (lit "<p>")
           (quoted "g" ++ lit "><b>chart</b>"));
    reflexivity.
Defined.

Lemma script_of_block_and_rest_witness :
  exists f g,
    extract (lit "<div>" ++ script_open ++ lit "a=1" ++ script_close
               ++ (script_open ++ lit "b=2" ++ script_close)) = Returns f
    /\ extract (script_open ++ lit "b=2" ++ script_close) = Returns g
    /\ script f = terminated (lit "a=1") ++ script g.
Proof.
  apply (@script_of_block_and_rest (lit "<div>") (lit "a=1")
           (script_open ++ lit "b=2" ++ script_close));
    reflexivity.
Defined.

Lemma script_needs_exact_opening_tag_witness :
  exists markup,
    get_html_and_script_from_figure render_as_is
      (lit "<div><script>a=1</script></div>") 425 970 false =
    Returns (mk_fragments markup []).
Proof.
  apply (@script_needs_exact_opening_tag str render_as_is
           (lit "<div><script>a=1</script></div>") 425%Z 970%Z false).
  reflexivity.
Defined.

(** ** More on [param_dict_to_code] *)

Lemma single_line_flat_no_newline_witness :
  param_dict_to_code literal_one
    [(lit "x", PyAtom tt); (lit "color", PyStr (lit "red"))] 0 true =
    lit "x=1, color=1"
  /\ ~ In nl (param_dict_to_code literal_one
                [(lit "x", PyAtom tt); (lit "color", PyStr (lit "red"))]
                0 true).
Proof.
  split; [reflexivity|].
  apply (@single_line_flat_no_newline unit literal_one
           [(lit "x", PyAtom tt); (lit "color", PyStr (lit "red"))] 0).
  intros key value [H|[H|[]]]; injection H as <- <-;
    (split; [|split]); try discriminate; cbv; intuition discriminate.
Defined.

(** Induction on a value, with the values of a dictionary as smaller
    values. *)
Lemma pyval_nested_ind (atom : Type) (P : pyval atom -> Prop) :
  (forall a, P (PyAtom a)) ->
  (forall s, P (PyStr s)) ->
  (forall items, Forall (fun entry => P (snd entry)) items ->
                 P (PyDict items)) ->
  forall v, P v.
Proof.
  intros Hatom Hstr Hdict. fix IH 1. intros [a|s|items].
  - apply Hatom.
  - apply Hstr.
  - apply Hdict. induction items as [|[key value] items IHitems].
    + constructor.
    + constructor; [apply IH|apply IHitems].
Qed.

Lemma paren_balance_app (s t : str) :
  paren_balance (s ++ t) = (paren_balance s + paren_balance t)%Z.
Proof. unfold paren_balance. rewrite !count_occ_app. lia. Qed.

Lemma paren_balance_repeat (T : str) (n : nat) :
  paren_balance T = 0%Z -> paren_balance (py_repeat T n) = 0%Z.
Proof.
  intros HT. induction n as [|n IH]; [reflexivity|].
  cbn [py_repeat]. rewrite paren_balance_app. lia.
Qed.

Lemma paren_balance_join (sep : str) (parts : list str) :
  paren_balance sep = 0%Z ->
  Forall (fun p => paren_balance p = 0%Z) parts ->
  paren_balance (py_join sep parts) = 0%Z.
Proof.
  intros Hsep Hparts. induction Hparts as [|p parts Hp Hrest IH];
    [reflexivity|].
  destruct parts as [|q parts]; [exact Hp|].
  change (py_join sep (p :: q :: parts))
    with (p ++ sep ++ py_join sep (q :: parts)).
  rewrite !paren_balance_app. lia.
Qed.

Section SerializerMore.

Variable atom : Type.
Variable column_header_to_transpiled_code : pyval atom -> str.

#[local] Abbreviation conv := column_header_to_transpiled_code.

Lemma paren_balance_value (v : pyval atom) :
  balanced conv v ->
  forall items, v = PyDict items ->
  forall (level : nat) (as_single_line : bool),
    paren_balance (param_dict_to_code conv items level as_single_line) = 0%Z.
Proof.
  induction v as [a|s|items IH] using pyval_nested_ind;
    intros Hbal items' Heq level as_single_line; try discriminate.
  injection Heq as <-. inversion Hbal as [| |items0 Hitems]; subst items0.
  rewrite param_dict_to_code_layout. cbv zeta.
  set (T := if as_single_line then [] else TAB).
  set (N := if as_single_line then [] else [nl]).
  assert (HT : paren_balance T = 0%Z) by (unfold T; now destruct as_single_line).
  assert (HN : paren_balance N = 0%Z) by (unfold N; now destruct as_single_line).
  rewrite !paren_balance_app.
  assert (Hjoin : paren_balance
                    (py_join (lit ", " ++ N)
                       (map (fun entry =>
                               py_repeat T (level + 1)
                                 ++ entry_code conv level entry) items))
                  = 0%Z).
  { apply paren_balance_join.
    - rewrite paren_balance_app, HN. reflexivity.
    - apply Forall_map. clear Hbal.
      induction items as [|[key value] items IHitems]; constructor.
      + inversion IH as [|? ? Hvalue _]. inversion Hitems as [|? ? [Hkey Hv] _].
        subst. cbn [fst snd] in *.
        rewrite paren_balance_app, paren_balance_repeat by exact HT.
        destruct value as [a|s|nested]; cbn [entry_code];
          rewrite !paren_balance_app, Hkey.
        * inversion Hv as [? Ha| |]. rewrite Ha. reflexivity.
        * inversion Hv as [|? Hs|]. rewrite Hs. reflexivity.
        * rewrite (Hvalue Hv nested eq_refl). reflexivity.
      + apply IHitems.
        * now inversion IH.
        * now inversion Hitems. }
  rewrite Hjoin.
  destruct (level =? 0).
  - lia.
  - rewrite !paren_balance_app, HN, (@paren_balance_repeat T level HT).
    reflexivity.
Qed.

(** X13. When the keys and the literals of a parameter dictionary, at
    every depth, have as many opening as closing parentheses, so has the
    code generated for it, at every level and in both modes: each [dict(]
    is closed. *)
Theorem param_dict_code_parentheses :
  forall (param_dict : dict (pyval atom)) (level : nat)
         (as_single_line : bool),
    balanced conv (PyDict param_dict) ->
    paren_balance (param_dict_to_code conv param_dict level as_single_line)
    = 0%Z.
Proof.
  intros param_dict level as_single_line Hbal.
  now apply paren_balance_value with (v := PyDict param_dict).
Qed.

End SerializerMore.

Lemma param_dict_code_parentheses_witness :
  paren_balance
    (param_dict_to_code literal_one
       [(lit "x", PyAtom tt);
        (lit "font", PyDict [(lit "size", PyAtom tt); (lit "axis", PyDict [])])]
       0 false)
  = 0%Z.
Proof.
  apply (@param_dict_code_parentheses unit literal_one
           [(lit "x", PyAtom tt);
            (lit "font",
             PyDict [(lit "size", PyAtom tt); (lit "axis", PyDict [])])]
           0 false).
  repeat (constructor; cbn [fst snd]; try split; try reflexivity).
Defined.

(** ** [get_column_header_from_optional_column_id_graph_param] *)

Section ColumnParamClaims.

Import ColumnParam.

Variable atom : Type.
Variables State ColumnHeader Keys Exn : Type.
Variable key_error : str -> Exn.
Variable column_id_to_column_header :
  State -> pyval atom -> result Exn Keys.
Variable in_keys : pyval atom -> Keys -> result Exn bool.
Variable get_column_header_by_id :
  State -> pyval atom -> pyval atom -> result Exn ColumnHeader.

#[local] Abbreviation optional_header :=
  (get_column_header_from_optional_column_id_graph_param key_error
     column_id_to_column_header in_keys get_column_header_by_id).

(** X14. The parameters must hold ["sheet_index"], also when the optional
    parameter is not given: without it the call raises [KeyError]. With it
    and without the optional parameter the call returns [None] and the
    state is not consulted. A header is returned only when the parameter
    is bound to an identifier that is among the column identifiers of the
    sheet, and it is the header the state manager gives for it. *)
Theorem optional_column_header_cases :
  forall (state : State) (graph_creation_params : dict (pyval atom))
         (param_name : str),
    (dict_get graph_creation_params (lit "sheet_index") = None ->
     optional_header state graph_creation_params param_name =
     Err (key_error (lit "sheet_index")))
    /\
    (forall sheet_index,
       dict_get graph_creation_params (lit "sheet_index") = Some sheet_index ->
       dict_get graph_creation_params param_name = None ->
       optional_header state graph_creation_params param_name = Ok None)
    /\
    (forall column_header,
       optional_header state graph_creation_params param_name =
         Ok (Some column_header) ->
       exists sheet_index column_id keys,
         dict_get graph_creation_params (lit "sheet_index") = Some sheet_index
         /\ dict_get graph_creation_params param_name = Some column_id
         /\ column_id_to_column_header state sheet_index = Ok keys
         /\ in_keys column_id keys = Ok true
         /\ get_column_header_by_id state sheet_index column_id =
            Ok column_header).
Proof.
  intros state graph_creation_params param_name.
  unfold get_column_header_from_optional_column_id_graph_param.
  split; [|split].
  - intros H. now rewrite H.
  - intros sheet_index Hs Hp. now rewrite Hs, Hp.
  - intros column_header H.
    destruct (dict_get graph_creation_params (lit "sheet_index"))
      as [sheet_index|]; [|discriminate].
    destruct (dict_get graph_creation_params param_name)
      as [column_id|]; [|discriminate].
    destruct (column_id_to_column_header state sheet_index)
      as [keys|e] eqn:Ekeys; [|discriminate].
    destruct (in_keys column_id keys) as [[|]|e] eqn:Ein; try discriminate.
    destruct (get_column_header_by_id state sheet_index column_id)
      as [h|e] eqn:Eh; [|discriminate].
    injection H as ->.
    exists sheet_index, column_id, keys. repeat split; trivial.
Qed.

End ColumnParamClaims.

Lemma optional_column_header_cases_witness :
  ColumnParam.get_column_header_from_optional_column_id_graph_param
    (fun key => lit "KeyError " ++ key) sheet_of id_in_sheet header_of
    ([(lit "c0", lit "Age")], [])
    [(lit "x_axis", PyStr (lit "c0"))] (lit "x_axis")
  = ColumnParam.Err (lit "KeyError sheet_index")
  /\ ColumnParam.get_column_header_from_optional_column_id_graph_param
       (fun key => lit "KeyError " ++ key) sheet_of id_in_sheet header_of
       ([(lit "c0", lit "Age")], [])
       [(lit "sheet_index", PyDict [])] (lit "x_axis")
     = ColumnParam.Ok None
  /\ exists sheet_index column_id keys,
       dict_get [(lit "sheet_index", PyAtom false);
                 (lit "x_axis", PyStr (lit "c0"))] (lit "sheet_index")
         = Some sheet_index
       /\ dict_get [(lit "sheet_index", PyAtom false);
                    (lit "x_axis", PyStr (lit "c0"))] (lit "x_axis")
          = Some column_id
       /\ sheet_of ([(lit "c0", lit "Age")], []) sheet_index
          = ColumnParam.Ok keys
       /\ id_in_sheet column_id keys = ColumnParam.Ok true
       /\ header_of ([(lit "c0", lit "Age")], []) sheet_index column_id
          = ColumnParam.Ok (lit "Age").
Proof.
  split; [|split].
  - apply (proj1 (@optional_column_header_cases bool two_sheets str
                    (dict str) str (fun key => lit "KeyError " ++ key)
                    sheet_of id_in_sheet header_of
                    ([(lit "c0", lit "Age")], [])
                    [(lit "x_axis", PyStr (lit "c0"))] (lit "x_axis"))).
    reflexivity.
  - apply (proj1 (proj2 (@optional_column_header_cases bool two_sheets str
                    (dict str) str (fun key => lit "KeyError " ++ key)
                    sheet_of id_in_sheet header_of
                    ([(lit "c0", lit "Age")], [])
                    [(lit "sheet_index", PyDict [])] (lit "x_axis")))
             (PyDict []));
      reflexivity.
  - apply (proj2 (proj2 (@optional_column_header_cases bool two_sheets str
                    (dict str) str (fun key => lit "KeyError " ++ key)
                    sheet_of id_in_sheet header_of
                    ([(lit "c0", lit "Age")], [])
                    [(lit "sheet_index", PyAtom false);
                     (lit "x_axis", PyStr (lit "c0"))] (lit "x_axis")))
             (lit "Age")).
    reflexivity.
Defined.

(** ** [install_step_mitosheet_check_dependencies] *)

Section InstallerClaims.

Import Installer.

Variable format_names : list str -> str.

(** X15. The dependency check passes exactly when no JupyterLab is
    installed, or its version text starts with the character [3], or no
    extension is installed; in every other case it raises, and the message
    lists the installed extensions. *)
Theorem check_dependencies_cases :
  forall (jupyterlab_version : option str) (extension_names : list str),
    (install_step_mitosheet_check_dependencies format_names
       (jupyterlab_version, extension_names) = StepReturns
     <-> (jupyterlab_version = None
          \/ (exists version, jupyterlab_version = Some version
                /\ starts_with (lit "3") version = true)
          \/ extension_names = []))
    /\
    (forall version,
       jupyterlab_version = Some version ->
       starts_with (lit "3") version = false ->
       extension_names <> [] ->
       install_step_mitosheet_check_dependencies format_names
         (jupyterlab_version, extension_names) =
       StepRaises (lit "Installed extensions "
                     ++ format_names extension_names)).
Proof.
  intros jupyterlab_version extension_names.
  unfold install_step_mitosheet_check_dependencies. split.
  - destruct jupyterlab_version as [version|]; [|tauto].
    destruct (starts_with (lit "3") version) eqn:E.
    + split; trivial. intros _. right. left. now exists version.
    + destruct extension_names as [|name names].
      * split; trivial. intros _. right. right. reflexivity.
      * cbn [length]. rewrite Nat2Z.inj_succ.
        destruct (Z.eqb_spec (Z.succ (Z.of_nat (length names))) 0); [lia|].
        split; [discriminate|].
        intros [H|[(v & Hv & Hs)|H]]; try discriminate.
        injection Hv as <-. congruence.
  - intros version -> Hs Hne. rewrite Hs.
    destruct extension_names as [|name names]; [easy|].
    cbn [length]. rewrite Nat2Z.inj_succ.
    destruct (Z.eqb_spec (Z.succ (Z.of_nat (length names))) 0); [lia|].
    reflexivity.
Qed.

End InstallerClaims.

Lemma check_dependencies_cases_witness :
  Installer.install_step_mitosheet_check_dependencies names_joined
    (Some (lit "2.2.9"), [lit "jupyterlab-plotly"; lit "widgets"])
  = Installer.StepRaises
      (lit "Installed extensions jupyterlab-plotly, widgets").
Proof.
  apply (proj2 (@check_dependencies_cases names_joined
                  (Some (lit "2.2.9"))
                  [lit "jupyterlab-plotly"; lit "widgets"])
           (lit "2.2.9"));
    [reflexivity|reflexivity|discriminate].
Defined.
